(** * Response normalisation of the video-analysis harness

    A shallow embedding of the two pure stages of the repository:

    - the raw-text extractor ([parse_json_from_model_text] in
      [openrouter_client.py], duplicated as [_parse_json_safe] in
      [video_llm_integration.py]), and
    - the schema coercer, i.e. the pydantic models of
      [video_analysis_models.py] with their field and model validators.

    Python values are embedded as the inductive [pyval]; a Python [str] is
    a list of Unicode code points; a Python [float] is an IEEE-754 binary64
    value of the standard library's [spec_float]; a [dict] is an association
    list kept in insertion order.  Exceptions are explicit: functions that can
    raise return an [outcome].

    The interpreter's resource limits (recursion depth, the limit on the
    number of digits of an integer literal) are not part of the model. *)

From Stdlib Require Import ZArith NArith List String Ascii Bool Lia SpecFloat.
From Stdlib Require DecimalN DecimalFacts.
Import ListNotations.

Set Implicit Arguments.
Local Open Scope string_scope.
Local Open Scope list_scope.

(* ================================================================== *)
(** * Python strings *)
(* ================================================================== *)

(** A Python [str]: a sequence of code points. *)
Definition str := list N.

(** An ASCII literal as a Python [str]. *)
Fixpoint py (s : string) : str :=
  match s with
  | EmptyString => []
  | String a rest => N_of_ascii a :: py rest
  end.

Arguments py s%_string : simpl never.

(** JSON source text is written below with ['] standing for the double
    quote, which keeps the literals readable. *)
Definition pyj (s : string) : str :=
  map (fun c => if N.eqb c 39 then 34%N else c) (py s).

Fixpoint str_eqb (a b : str) : bool :=
  match a, b with
  | [], [] => true
  | x :: a', y :: b' => N.eqb x y && str_eqb a' b'
  | _, _ => false
  end.

(** [str.isspace] for one code point (CPython's [_PyUnicode_IsWhitespace]). *)
Definition isspace (c : N) : bool :=
  ((9 <=? c) && (c <=? 13) || (28 <=? c) && (c <=? 32)
   || (c =? 133) || (c =? 160) || (c =? 5760)
   || (8192 <=? c) && (c <=? 8202)
   || (c =? 8232) || (c =? 8233) || (c =? 8239) || (c =? 8287)
   || (c =? 12288))%N.

(** [s.lstrip()], [s.rstrip()], [s.strip()]. *)
Fixpoint lstrip (s : str) : str :=
  match s with
  | [] => []
  | c :: t => if isspace c then lstrip t else s
  end.

Definition rstrip (s : str) : str := rev (lstrip (rev s)).

Definition strip (s : str) : str := rstrip (lstrip s).

(** [s.startswith(p)] and [s.endswith(p)]. *)
Fixpoint startswith (p s : str) : bool :=
  match p, s with
  | [], _ => true
  | x :: p', y :: s' => N.eqb x y && startswith p' s'
  | _ :: _, [] => false
  end.

Definition endswith (p s : str) : bool := startswith (rev p) (rev s).

(** [s.find(c)] for a one-character needle: the first index, or [-1]. *)
Fixpoint find (c : N) (s : str) : Z :=
  match s with
  | [] => -1
  | x :: t =>
      if N.eqb x c then 0
      else let r := find c t in
           if (r =? -1)%Z then (-1)%Z else (r + 1)%Z
  end.

(** The slices [s[i:]] for [0 <= i] and [s[:-n]]. *)
Definition slice_from (i : Z) (s : str) : str := skipn (Z.to_nat i) s.

Definition slice_drop_last (n : nat) (s : str) : str :=
  firstn (List.length s - n) s.

(** [sep.join(parts)]. *)
Fixpoint join (sep : str) (parts : list str) : str :=
  match parts with
  | [] => []
  | [x] => x
  | x :: rest => x ++ sep ++ join sep rest
  end.

Definition newline : N := 10.
Definition backtick : N := 96.
Definition fence : str := [backtick; backtick; backtick].

(** Decimal digits of a natural number, as [str(n)] prints them. *)
Fixpoint uint_digits (u : Decimal.uint) : str :=
  match u with
  | Decimal.Nil => []
  | Decimal.D0 r => 48%N :: uint_digits r
  | Decimal.D1 r => 49%N :: uint_digits r
  | Decimal.D2 r => 50%N :: uint_digits r
  | Decimal.D3 r => 51%N :: uint_digits r
  | Decimal.D4 r => 52%N :: uint_digits r
  | Decimal.D5 r => 53%N :: uint_digits r
  | Decimal.D6 r => 54%N :: uint_digits r
  | Decimal.D7 r => 55%N :: uint_digits r
  | Decimal.D8 r => 56%N :: uint_digits r
  | Decimal.D9 r => 57%N :: uint_digits r
  end.

Definition nat_digits (n : N) : str := uint_digits (N.to_uint n).

(** [str(n)] for a Python [int]. *)
Definition int_str (n : Z) : str :=
  if (n <? 0)%Z then 45%N :: nat_digits (Z.to_N (- n))
  else nat_digits (Z.to_N n).

(** The format [f"{n:02d}"]: sign first, zero-padded to width two. *)
Definition fmt_02d (n : Z) : str :=
  if (n <? 0)%Z then int_str n
  else if (n <? 10)%Z then 48%N :: int_str n
  else int_str n.

(* ================================================================== *)
(** * Python values *)
(* ================================================================== *)

(** The values [json.loads] produces and the validators inspect. *)
#[local] Set Warnings "-register-all".
Inductive pyval : Type :=
| PNone
| PBool (b : bool)
| PInt (n : Z)
| PFloat (f : spec_float)
| PStr (s : str)
| PList (l : list pyval)
| PDict (d : list (str * pyval)).

Definition dict := list (str * pyval).

(** [d.get(k)]: [None] stands for an absent key. *)
Fixpoint dict_get (k : str) (d : dict) : option pyval :=
  match d with
  | [] => None
  | (k', v) :: rest => if str_eqb k k' then Some v else dict_get k rest
  end.

(** [d[k] = v]: an existing key keeps its position, a new key goes last. *)
Fixpoint dict_set (k : str) (v : pyval) (d : dict) : dict :=
  match d with
  | [] => [(k, v)]
  | (k', v') :: rest =>
      if str_eqb k k' then (k', v) :: rest else (k', v') :: dict_set k v rest
  end.

(** The parts of the Python runtime and of pydantic that the repository's
    code calls but whose exact output no property below depends on. *)
Class PyRuntime : Type := {
  (** [repr(x)] of a float (the shortest round-tripping decimal). *)
  float_repr : spec_float -> str;
  (** [repr(s)] of a str (quoting and escaping). *)
  str_repr : str -> str;
  (** pydantic's lax-mode conversion to [int] of a value that is not an
      [int] already (bool, integral float, numeric string). *)
  int_lax : pyval -> option Z;
  (** pydantic's lax-mode conversion to [float] of a non-float value. *)
  float_lax : pyval -> option spec_float;
  (** pydantic's lax-mode conversion to [bool] of a non-bool value. *)
  bool_lax : pyval -> option bool
}.

(** [repr(v)]. *)
Fixpoint py_repr `{PyRuntime} (v : pyval) : str :=
  match v with
  | PNone => py "None"
  | PBool true => py "True"
  | PBool false => py "False"
  | PInt n => int_str n
  | PFloat f => float_repr f
  | PStr s => str_repr s
  | PList l => py "[" ++ join (py ", ") (map py_repr l) ++ py "]"
  | PDict d =>
      py "{"
      ++ join (py ", ")
           (map (fun kv => str_repr (fst kv) ++ py ": " ++ py_repr (snd kv)) d)
      ++ py "}"
  end.

(** [str(v)]. *)
Definition py_str `{PyRuntime} (v : pyval) : str :=
  match v with
  | PStr s => s
  | _ => py_repr v
  end.

(* ================================================================== *)
(** * json.loads *)
(* ================================================================== *)

(** The decoder of the standard [json] module with its default settings
    (strict strings, the constants [NaN], [Infinity] and [-Infinity]
    accepted), as a pushdown automaton that reads one code point at a
    time.  [None] stands for [json.JSONDecodeError]. *)
Module Json.

Definition is_ws (c : N) : bool :=
  ((c =? 32) || (c =? 9) || (c =? 10) || (c =? 13))%N.

Definition digit_val (c : N) : option N :=
  if ((48 <=? c) && (c <=? 57))%N then Some (c - 48)%N else None.

Definition hex_val (c : N) : option N :=
  if ((48 <=? c) && (c <=? 57))%N then Some (c - 48)%N
  else if ((97 <=? c) && (c <=? 102))%N then Some (c - 87)%N
  else if ((65 <=? c) && (c <=? 70))%N then Some (c - 55)%N
  else None.

(** The correctly rounded binary64 value of [(-1)^neg * m * 10^e10]. *)
Definition float_of_decimal (neg : bool) (m : N) (e10 : Z) : spec_float :=
  let mz := Z.of_N m in
  let sgn := fun z : Z => if neg then Z.opp z else z in
  if (mz =? 0)%Z then S754_zero neg
  else if (0 <=? e10)%Z then
    binary_normalize 53 1024 (sgn (mz * 10 ^ e10)%Z) 0 neg
  else
    let d := (10 ^ (- e10))%Z in
    let k := Z.max 0 (64 + Z.log2_up d - Z.log2 mz) in
    let q := (mz * 2 ^ k / d)%Z in
    let r := (mz * 2 ^ k mod d)%Z in
    let sticky := if (r =? 0)%Z then 0%Z else 1%Z in
    binary_normalize 53 1024 (sgn (2 * q + sticky)%Z) (- (k + 1)) neg.

(** A number literal read so far: sign, all digits of the integer and
    fraction parts as one natural number, the number of fraction digits,
    and the exponent. *)
Record numacc : Type := {
  nneg : bool;
  nmant : N;
  nfrac : N;
  neneg : bool;
  nexp : N
}.

(** Where in a number literal (sign, integer part, fraction, exponent)
  the decoder is. *)
Inductive numst : Type :=
| NMinus | NZero | NInt | NDot | NFrac | NE | NESign | NExp.

Definition num_final (st : numst) : bool :=
  match st with
  | NZero | NInt | NFrac | NExp => true
  | _ => false
  end.

Definition num_value (st : numst) (a : numacc) : pyval :=
  match st with
  | NFrac | NExp =>
      let e := if neneg a then (- Z.of_N (nexp a))%Z else Z.of_N (nexp a) in
      PFloat (float_of_decimal (nneg a) (nmant a) (e - Z.of_N (nfrac a)))
  | _ => PInt (if nneg a then (- Z.of_N (nmant a))%Z else Z.of_N (nmant a))
  end.

Inductive lit : Type := LTrue | LFalse | LNull | LNaN | LInfinity (neg : bool).

(** The characters of a literal after its first one (after [-I] for
    [-Infinity]). *)
Definition lit_rest (l : lit) : str :=
  match l with
  | LTrue => py "rue"
  | LFalse => py "alse"
  | LNull => py "ull"
  | LNaN => py "aN"
  | LInfinity _ => py "nfinity"
  end.

Definition lit_value (l : lit) : pyval :=
  match l with
  | LTrue => PBool true
  | LFalse => PBool false
  | LNull => PNone
  | LNaN => PFloat S754_nan
  | LInfinity neg => PFloat (S754_infinity neg)
  end.

(** An open container: the items of an array, latest first, or the
    members of an object with the key whose value is awaited. *)
Inductive frame : Type :=
| FArr (items : list pyval)
| FObj (pairs : dict) (key : option str).

Inductive mode : Type :=
| MValue (close_ok : bool)
| MKey (close_ok : bool)
| MColon
| MAfter
| MDone (v : pyval)
| MLit (l : lit) (k : nat)
| MNum (st : numst) (a : numacc)
| MStr (acc : str) (hi : bool)
| MEsc (acc : str) (hi : bool)
| MUni (acc : str) (hi : bool) (n : nat) (u : N).

Definition state : Type := (list frame * mode)%type.

(** A value is complete: store it in the enclosing container. *)
Definition complete (stk : list frame) (v : pyval) : option state :=
  match stk with
  | [] => Some ([], MDone v)
  | FArr items :: r => Some (FArr (v :: items) :: r, MAfter)
  | FObj pairs (Some k) :: r =>
      Some (FObj (dict_set k v pairs) None :: r, MAfter)
  | FObj _ None :: _ => None
  end.

(** A string is complete: it is a key if an object awaits one. *)
Definition complete_string (stk : list frame) (s : str) : option state :=
  match stk with
  | FObj pairs None :: r => Some (FObj pairs (Some s) :: r, MColon)
  | _ => complete stk (PStr s)
  end.

Definition close_array (stk : list frame) : option state :=
  match stk with
  | FArr items :: r => complete r (PList (rev items))
  | _ => None
  end.

Definition close_object (stk : list frame) : option state :=
  match stk with
  | FObj pairs None :: r => complete r (PDict pairs)
  | _ => None
  end.

(** After a value: a separator, a closing bracket or white space. *)
Definition step_after (stk : list frame) (c : N) : option state :=
  if is_ws c then Some (stk, MAfter)
  else if (c =? 44)%N then
    match stk with
    | FArr _ :: _ => Some (stk, MValue false)
    | FObj _ None :: _ => Some (stk, MKey false)
    | _ => None
    end
  else if (c =? 93)%N then close_array stk
  else if (c =? 125)%N then close_object stk
  else None.

Definition step_done (stk : list frame) (v : pyval) (c : N) : option state :=
  if is_ws c then Some (stk, MDone v) else None.

(** The character that ended a number is read again after the number. *)
Definition resume (q : option state) (c : N) : option state :=
  match q with
  | Some (stk, MAfter) => step_after stk c
  | Some (stk, MDone v) => step_done stk v c
  | _ => None
  end.

Definition num0 (neg : bool) (m : N) : numacc :=
  {| nneg := neg; nmant := m; nfrac := 0; neneg := false; nexp := 0 |}.

Definition step_value (stk : list frame) (close_ok : bool) (c : N)
  : option state :=
  if is_ws c then Some (stk, MValue close_ok)
  else if (c =? 34)%N then Some (stk, MStr [] false)
  else if (c =? 123)%N then Some (FObj [] None :: stk, MKey true)
  else if (c =? 91)%N then Some (FArr [] :: stk, MValue true)
  else if (c =? 93)%N then (if close_ok then close_array stk else None)
  else if (c =? 45)%N then Some (stk, MNum NMinus (num0 true 0))
  else if (c =? 48)%N then Some (stk, MNum NZero (num0 false 0))
  else if (c =? 116)%N then Some (stk, MLit LTrue 0)
  else if (c =? 102)%N then Some (stk, MLit LFalse 0)
  else if (c =? 110)%N then Some (stk, MLit LNull 0)
  else if (c =? 78)%N then Some (stk, MLit LNaN 0)
  else if (c =? 73)%N then Some (stk, MLit (LInfinity false) 0)
  else match digit_val c with
       | Some d => Some (stk, MNum NInt (num0 false d))
       | None => None
       end.

Definition step_key (stk : list frame) (close_ok : bool) (c : N)
  : option state :=
  if is_ws c then Some (stk, MKey close_ok)
  else if (c =? 34)%N then Some (stk, MStr [] false)
  else if (c =? 125)%N then (if close_ok then close_object stk else None)
  else None.

Definition step_lit (stk : list frame) (l : lit) (k : nat) (c : N)
  : option state :=
  match nth_error (lit_rest l) k with
  | Some x =>
      if (c =? x)%N then
        if Nat.eqb (S k) (List.length (lit_rest l)) then complete stk (lit_value l)
        else Some (stk, MLit l (S k))
      else None
  | None => None
  end.

Definition push_digit (a : numacc) (d : N) (frac : bool) : numacc :=
  {| nneg := nneg a; nmant := (nmant a * 10 + d)%N;
     nfrac := if frac then (nfrac a + 1)%N else nfrac a;
     neneg := neneg a; nexp := nexp a |}.

Definition push_exp (a : numacc) (d : N) : numacc :=
  {| nneg := nneg a; nmant := nmant a; nfrac := nfrac a;
     neneg := neneg a; nexp := (nexp a * 10 + d)%N |}.

Definition set_eneg (a : numacc) : numacc :=
  {| nneg := nneg a; nmant := nmant a; nfrac := nfrac a;
     neneg := true; nexp := nexp a |}.

Definition is_e (c : N) : bool := ((c =? 101) || (c =? 69))%N.

Definition step_num (stk : list frame) (st : numst) (a : numacc) (c : N)
  : option state :=
  let finish_here := resume (complete stk (num_value st a)) c in
  match st with
  | NMinus =>
      if (c =? 48)%N then Some (stk, MNum NZero a)
      else if (c =? 73)%N then Some (stk, MLit (LInfinity true) 0)
      else match digit_val c with
           | Some d => Some (stk, MNum NInt (push_digit a d false))
           | None => None
           end
  | NZero =>
      if (c =? 46)%N then Some (stk, MNum NDot a)
      else if is_e c then Some (stk, MNum NE a)
      else finish_here
  | NInt =>
      match digit_val c with
      | Some d => Some (stk, MNum NInt (push_digit a d false))
      | None =>
          if (c =? 46)%N then Some (stk, MNum NDot a)
          else if is_e c then Some (stk, MNum NE a)
          else finish_here
      end
  | NDot =>
      match digit_val c with
      | Some d => Some (stk, MNum NFrac (push_digit a d true))
      | None => None
      end
  | NFrac =>
      match digit_val c with
      | Some d => Some (stk, MNum NFrac (push_digit a d true))
      | None => if is_e c then Some (stk, MNum NE a) else finish_here
      end
  | NE =>
      match digit_val c with
      | Some d => Some (stk, MNum NExp (push_exp a d))
      | None =>
          if (c =? 43)%N then Some (stk, MNum NESign a)
          else if (c =? 45)%N then Some (stk, MNum NESign (set_eneg a))
          else None
      end
  | NESign =>
      match digit_val c with
      | Some d => Some (stk, MNum NExp (push_exp a d))
      | None => None
      end
  | NExp =>
      match digit_val c with
      | Some d => Some (stk, MNum NExp (push_exp a d))
      | None => finish_here
      end
  end.

Definition step_str (stk : list frame) (acc : str) (hi : bool) (c : N)
  : option state :=
  if (c =? 34)%N then complete_string stk (rev acc)
  else if (c =? 92)%N then Some (stk, MEsc acc hi)
  else if (c <? 32)%N then None
  else Some (stk, MStr (c :: acc) false).

Definition step_esc (stk : list frame) (acc : str) (hi : bool) (c : N)
  : option state :=
  if (c =? 117)%N then Some (stk, MUni acc hi 0 0%N)
  else
    let plain := fun x : N => Some (stk, MStr (x :: acc) false) in
    if (c =? 34)%N then plain 34%N
    else if (c =? 92)%N then plain 92%N
    else if (c =? 47)%N then plain 47%N
    else if (c =? 98)%N then plain 8%N
    else if (c =? 102)%N then plain 12%N
    else if (c =? 110)%N then plain 10%N
    else if (c =? 114)%N then plain 13%N
    else if (c =? 116)%N then plain 9%N
    else None.

Definition is_high (u : N) : bool := ((55296 <=? u) && (u <=? 56319))%N.
Definition is_low (u : N) : bool := ((56320 <=? u) && (u <=? 57343))%N.

(** A [\uXXXX] escape is complete.  A low surrogate right after an
    escaped high surrogate joins it into one code point. *)
Definition push_escape (acc : str) (hi : bool) (u : N) : mode :=
  match acc with
  | h :: acc' =>
      if hi && is_low u
      then MStr ((65536 + (h - 55296) * 1024 + (u - 56320))%N :: acc') false
      else MStr (u :: acc) (is_high u)
  | [] => MStr (u :: acc) (is_high u)
  end.

Definition step_uni (stk : list frame) (acc : str) (hi : bool) (n : nat)
    (u : N) (c : N) : option state :=
  match hex_val c with
  | Some d =>
      let u' := (u * 16 + d)%N in
      if Nat.eqb n 3 then Some (stk, push_escape acc hi u')
      else Some (stk, MUni acc hi (S n) u')
  | None => None
  end.

Definition step (q : state) (c : N) : option state :=
  let (stk, m) := q in
  match m with
  | MValue close_ok => step_value stk close_ok c
  | MKey close_ok => step_key stk close_ok c
  | MColon =>
      if is_ws c then Some (stk, MColon)
      else if (c =? 58)%N then Some (stk, MValue false)
      else None
  | MAfter => step_after stk c
  | MDone v => step_done stk v c
  | MLit l k => step_lit stk l k c
  | MNum st a => step_num stk st a c
  | MStr acc hi => step_str stk acc hi c
  | MEsc acc hi => step_esc stk acc hi c
  | MUni acc hi n u => step_uni stk acc hi n u c
  end.

Definition step' (q : option state) (c : N) : option state :=
  match q with
  | Some st => step st c
  | None => None
  end.

Fixpoint feed (q : option state) (s : str) : option state :=
  match s with
  | [] => q
  | c :: t => feed (step' q c) t
  end.

(** At the end of the text a value must be complete. *)
Definition finish (q : option state) : option pyval :=
  match q with
  | Some (_, MDone v) => Some v
  | Some (stk, MNum st a) =>
      if num_final st then
        match complete stk (num_value st a) with
        | Some (_, MDone v) => Some v
        | _ => None
        end
      else None
  | _ => None
  end.

Definition init : option state := Some ([], MValue false).

Definition loads (s : str) : option pyval := finish (feed init s).

End Json.

(* ================================================================== *)
(** * The raw-text extractor *)
(* ================================================================== *)

(** The error value both extractors return when decoding fails. *)
Definition error_envelope (raw : str) : pyval :=
  PDict [(py "error", PStr (py "Invalid JSON output")); (py "raw", PStr raw)].

Module openrouter_client.

(** [parse_json_from_model_text(text)]. *)
Definition parse_json_from_model_text (text : str) : pyval :=
  let cleaned := strip text in
  let cleaned :=
    if startswith fence cleaned then
      let first_fence_end := find newline cleaned in
      let cleaned :=
        if negb (first_fence_end =? -1)%Z
        then slice_from (first_fence_end + 1) cleaned
        else cleaned in
      if endswith fence (rstrip cleaned)
      then slice_drop_last 3 (rstrip cleaned)
      else cleaned
    else cleaned in
  match Json.loads cleaned with
  | Some v => v
  | None =>
      PDict [(py "error", PStr (py "Invalid JSON output"));
             (py "raw", PStr cleaned)]
  end.

End openrouter_client.

Module video_llm_integration.

(** [_parse_json_safe(text)]. *)
Definition _parse_json_safe (text : str) : pyval :=
  let text := strip text in
  let text :=
    if startswith fence text then
      let first_fence_end := find newline text in
      let text :=
        if negb (first_fence_end =? -1)%Z
        then slice_from (first_fence_end + 1) text
        else text in
      if endswith fence (rstrip text)
      then slice_drop_last 3 (rstrip text)
      else text
    else text in
  match Json.loads text with
  | Some v => v
  | None =>
      PDict [(py "error", PStr (py "Invalid JSON output"));
             (py "raw", PStr text)]
  end.

End video_llm_integration.

(** The text both extractors hand to [json.loads]: the input trimmed, and,
    when it begins with a fence, without its first line (if it has a line
    break) and without a closing fence (if it ends with one). *)
Definition drop_first_line (s : str) : str :=
  if (find newline s =? -1)%Z then s else slice_from (find newline s + 1) s.

Definition drop_closing_fence (s : str) : str :=
  if endswith fence (rstrip s) then slice_drop_last 3 (rstrip s) else s.

Definition fence_stripped (text : str) : str :=
  let t := strip text in
  if startswith fence t then drop_closing_fence (drop_first_line t) else t.

(* ================================================================== *)
(** * Exceptions and pydantic's validation combinators *)
(* ================================================================== *)

Inductive exn : Type :=
| ValidationError   (* pydantic_core.ValidationError *)
| ValueError
| TypeError
| OverflowError.

(** The result of a call that may raise. *)
Inductive outcome (A : Type) : Type :=
| Ok (a : A)
| Raise (e : exn).

Arguments Ok {A} a.
Arguments Raise {A} e.

Definition fmap {A B : Type} (f : A -> B) (x : outcome A) : outcome B :=
  match x with
  | Ok a => Ok (f a)
  | Raise e => Raise e
  end.

(** The fields of a model (and the items of a list) are validated in
    order.  A validation error is recorded and validation goes on; any
    other exception leaves the validator at once.  At the end, recorded
    errors become one [ValidationError]. *)
Definition ap {A B : Type} (f : outcome (A -> B)) (x : outcome A) : outcome B :=
  match f, x with
  | Ok g, Ok a => Ok (g a)
  | Ok _, Raise e => Raise e
  | Raise ValidationError, Ok _ => Raise ValidationError
  | Raise ValidationError, Raise e => Raise e
  | Raise e, _ => Raise e
  end.

Notation "f <*> x" := (ap f x) (at level 50, left associativity).

(** A function validator: pydantic turns a [ValueError] it raises into a
    validation error and lets every other exception through. *)
Definition validator_call {A : Type} (r : outcome A) : outcome A :=
  match r with
  | Raise ValueError => Raise ValidationError
  | _ => r
  end.

(** [field_validator(..., mode="before")]: the function runs on the raw
    input, the field's own validation on what it returns. *)
Definition before {A : Type} (f : pyval -> outcome pyval)
    (inner : pyval -> outcome A) (v : pyval) : outcome A :=
  match validator_call (f v) with
  | Ok v' => inner v'
  | Raise e => Raise e
  end.

Definition validate_str (v : pyval) : outcome str :=
  match v with
  | PStr s => Ok s
  | _ => Raise ValidationError
  end.

Definition of_option {A : Type} (o : option A) : outcome A :=
  match o with
  | Some a => Ok a
  | None => Raise ValidationError
  end.

Definition validate_int `{PyRuntime} (v : pyval) : outcome Z :=
  match v with
  | PInt n => Ok n
  | _ => of_option (int_lax v)
  end.

Definition validate_float `{PyRuntime} (v : pyval) : outcome spec_float :=
  match v with
  | PFloat f => Ok f
  | _ => of_option (float_lax v)
  end.

Definition validate_bool `{PyRuntime} (v : pyval) : outcome bool :=
  match v with
  | PBool b => Ok b
  | _ => of_option (bool_lax v)
  end.

(** [Optional[T]]. *)
Definition nullable {A : Type} (inner : pyval -> outcome A) (v : pyval)
  : outcome (option A) :=
  match v with
  | PNone => Ok None
  | _ => fmap Some (inner v)
  end.

Fixpoint traverse {A : Type} (inner : pyval -> outcome A) (l : list pyval)
  : outcome (list A) :=
  match l with
  | [] => Ok []
  | x :: rest => fmap cons (inner x) <*> traverse inner rest
  end.

(** [List[T]]. *)
Definition validate_list {A : Type} (inner : pyval -> outcome A) (v : pyval)
  : outcome (list A) :=
  match v with
  | PList l => traverse inner l
  | _ => Raise ValidationError
  end.

(** A model accepts a mapping; keys that name no field are ignored. *)
Definition validate_model {A : Type} (fields : dict -> outcome A) (v : pyval)
  : outcome A :=
  match v with
  | PDict d => fields d
  | _ => Raise ValidationError
  end.

(** A field with a default: an absent key gives the default, unvalidated. *)
Definition field {A : Type} (name : string) (inner : pyval -> outcome A)
    (default : A) (d : dict) : outcome A :=
  match dict_get (py name) d with
  | Some v => inner v
  | None => Ok default
  end.

(** A field without a default. *)
Definition required {A : Type} (name : string) (inner : pyval -> outcome A)
    (d : dict) : outcome A :=
  match dict_get (py name) d with
  | Some v => inner v
  | None => Raise ValidationError
  end.

(** [model_dump] of an optional field. *)
Definition dump_opt {A : Type} (f : A -> pyval) (o : option A) : pyval :=
  match o with
  | Some a => f a
  | None => PNone
  end.

Definition dump_strs (l : list str) : pyval := PList (map PStr l).

(* ================================================================== *)
(** * video_analysis_models.py *)
(* ================================================================== *)

Module TechnicalSpecs.
Record t : Type := mk {
  resolution : option str;
  fps : option spec_float;
  audio_channels : option Z
}.
Definition fields `{PyRuntime} (d : dict) : outcome t :=
  Ok mk
  <*> field "resolution" (nullable validate_str) None d
  <*> field "fps" (nullable validate_float) None d
  <*> field "audio_channels" (nullable validate_int) None d.
Definition model_validate `{PyRuntime} : pyval -> outcome t :=
  validate_model fields.
Definition model_dump (r : t) : pyval :=
  PDict [(py "resolution", dump_opt PStr (resolution r));
         (py "fps", dump_opt PFloat (fps r));
         (py "audio_channels", dump_opt PInt (audio_channels r))].
End TechnicalSpecs.

Module FileInfo.
Record t : Type := mk {
  video_id : option str;
  filename : option str;
  processed_at : option str;
  duration_seconds : option spec_float;
  technical_specs : option TechnicalSpecs.t
}.
Definition fields `{PyRuntime} (d : dict) : outcome t :=
  Ok mk
  <*> field "video_id" (nullable validate_str) None d
  <*> field "filename" (nullable validate_str) None d
  <*> field "processed_at" (nullable validate_str) None d
  <*> field "duration_seconds" (nullable validate_float) None d
  <*> field "technical_specs" (nullable TechnicalSpecs.model_validate) None d.
Definition model_validate `{PyRuntime} : pyval -> outcome t :=
  validate_model fields.
Definition model_dump (r : t) : pyval :=
  PDict [(py "video_id", dump_opt PStr (video_id r));
         (py "filename", dump_opt PStr (filename r));
         (py "processed_at", dump_opt PStr (processed_at r));
         (py "duration_seconds", dump_opt PFloat (duration_seconds r));
         (py "technical_specs",
          dump_opt TechnicalSpecs.model_dump (technical_specs r))].
End FileInfo.

Module GlobalAnalysis.
Record t : Type := mk {
  title_detected : option str;
  topics : list str;
  summary : option str;
  overall_sentiment : option str;
  dominant_language : option str
}.
Definition fields (d : dict) : outcome t :=
  Ok mk
  <*> field "title_detected" (nullable validate_str) None d
  <*> field "topics" (validate_list validate_str) [] d
  <*> field "summary" (nullable validate_str) None d
  <*> field "overall_sentiment" (nullable validate_str) None d
  <*> field "dominant_language" (nullable validate_str) None d.
Definition model_validate : pyval -> outcome t := validate_model fields.
Definition model_dump (r : t) : pyval :=
  PDict [(py "title_detected", dump_opt PStr (title_detected r));
         (py "topics", dump_strs (topics r));
         (py "summary", dump_opt PStr (summary r));
         (py "overall_sentiment", dump_opt PStr (overall_sentiment r));
         (py "dominant_language", dump_opt PStr (dominant_language r))].
End GlobalAnalysis.

Module TimeRange.
Record t : Type := mk {
  start : str;
  end_ : str
}.
Definition fields (d : dict) : outcome t :=
  Ok mk
  <*> required "start" validate_str d
  <*> required "end" validate_str d.
Definition model_validate : pyval -> outcome t := validate_model fields.
Definition model_dump (r : t) : pyval :=
  PDict [(py "start", PStr (start r)); (py "end", PStr (end_ r))].
End TimeRange.

Module Classification.
Record t : Type := mk {
  type_ : option str;
  topic : option str
}.
Definition fields (d : dict) : outcome t :=
  Ok mk
  <*> field "type" (nullable validate_str) None d
  <*> field "topic" (nullable validate_str) None d.
Definition model_validate : pyval -> outcome t := validate_model fields.
Definition model_dump (r : t) : pyval :=
  PDict [(py "type", dump_opt PStr (type_ r));
         (py "topic", dump_opt PStr (topic r))].
End Classification.

Module VisualSubject.
Record t : Type := mk {
  label : option str;
  attributes : list str;
  action : option str;
  emotion : option str
}.
Definition fields (d : dict) : outcome t :=
  Ok mk
  <*> field "label" (nullable validate_str) None d
  <*> field "attributes" (validate_list validate_str) [] d
  <*> field "action" (nullable validate_str) None d
  <*> field "emotion" (nullable validate_str) None d.
Definition model_validate : pyval -> outcome t := validate_model fields.
Definition model_dump (r : t) : pyval :=
  PDict [(py "label", dump_opt PStr (label r));
         (py "attributes", dump_strs (attributes r));
         (py "action", dump_opt PStr (action r));
         (py "emotion", dump_opt PStr (emotion r))].
End VisualSubject.

Module VisualAnalysis.
Record t : Type := mk {
  shot_type : option str;
  camera_movement : option str;
  main_subjects : list VisualSubject.t;
  environment : option str
}.
Definition fields (d : dict) : outcome t :=
  Ok mk
  <*> field "shot_type" (nullable validate_str) None d
  <*> field "camera_movement" (nullable validate_str) None d
  <*> field "main_subjects" (validate_list VisualSubject.model_validate) [] d
  <*> field "environment" (nullable validate_str) None d.
Definition model_validate : pyval -> outcome t := validate_model fields.
Definition model_dump (r : t) : pyval :=
  PDict [(py "shot_type", dump_opt PStr (shot_type r));
         (py "camera_movement", dump_opt PStr (camera_movement r));
         (py "main_subjects",
          PList (map VisualSubject.model_dump (main_subjects r)));
         (py "environment", dump_opt PStr (environment r))].
End VisualAnalysis.

Module AudioAnalysis.
Record t : Type := mk {
  transcript : option str;
  speaker_id : option str;
  bg_music : option str;
  voice_intonation : option str
}.
Definition fields (d : dict) : outcome t :=
  Ok mk
  <*> field "transcript" (nullable validate_str) None d
  <*> field "speaker_id" (nullable validate_str) None d
  <*> field "bg_music" (nullable validate_str) None d
  <*> field "voice_intonation" (nullable validate_str) None d.
Definition model_validate : pyval -> outcome t := validate_model fields.
Definition model_dump (r : t) : pyval :=
  PDict [(py "transcript", dump_opt PStr (transcript r));
         (py "speaker_id", dump_opt PStr (speaker_id r));
         (py "bg_music", dump_opt PStr (bg_music r));
         (py "voice_intonation", dump_opt PStr (voice_intonation r))].
End AudioAnalysis.

Module TextExtractionOCR.
Record t : Type := mk {
  visible_text : list str;
  programming_language : option str
}.
Definition fields (d : dict) : outcome t :=
  Ok mk
  <*> field "visible_text" (validate_list validate_str) [] d
  <*> field "programming_language" (nullable validate_str) None d.
Definition model_validate : pyval -> outcome t := validate_model fields.
Definition model_dump (r : t) : pyval :=
  PDict [(py "visible_text", dump_strs (visible_text r));
         (py "programming_language",
          dump_opt PStr (programming_language r))].
End TextExtractionOCR.

Module EngagementMechanics.
Record t : Type := mk {
  is_hook : bool;
  tactic : option str;
  psychological_trigger : option str
}.
Definition fields `{PyRuntime} (d : dict) : outcome t :=
  Ok mk
  <*> field "is_hook" validate_bool false d
  <*> field "tactic" (nullable validate_str) None d
  <*> field "psychological_trigger" (nullable validate_str) None d.
Definition model_validate `{PyRuntime} : pyval -> outcome t :=
  validate_model fields.
Definition model_dump (r : t) : pyval :=
  PDict [(py "is_hook", PBool (is_hook r));
         (py "tactic", dump_opt PStr (tactic r));
         (py "psychological_trigger",
          dump_opt PStr (psychological_trigger r))].
End EngagementMechanics.

Module IRReconstruction.
Record t : Type := mk {
  abstract_concept : option str;
  generative_prompt : option str
}.
Definition fields (d : dict) : outcome t :=
  Ok mk
  <*> field "abstract_concept" (nullable validate_str) None d
  <*> field "generative_prompt" (nullable validate_str) None d.
Definition model_validate : pyval -> outcome t := validate_model fields.
Definition model_dump (r : t) : pyval :=
  PDict [(py "abstract_concept", dump_opt PStr (abstract_concept r));
         (py "generative_prompt", dump_opt PStr (generative_prompt r))].
End IRReconstruction.

Module GlobalViralityAnalysis.
Record t : Type := mk {
  virality_score : option Z;
  hook_strategy : option str;
  target_audience : option str;
  share_trigger : option str
}.
(** [_coerce_target_audience(cls, v)]. *)
Definition _coerce_target_audience `{PyRuntime} (v : pyval) : outcome pyval :=
  match v with
  | PList l => Ok (PStr (join (py ", ") (map py_str l)))
  | _ => Ok v
  end.
Definition fields `{PyRuntime} (d : dict) : outcome t :=
  Ok mk
  <*> field "virality_score" (nullable validate_int) None d
  <*> field "hook_strategy" (nullable validate_str) None d
  <*> field "target_audience"
        (before _coerce_target_audience (nullable validate_str)) None d
  <*> field "share_trigger" (nullable validate_str) None d.
Definition model_validate `{PyRuntime} : pyval -> outcome t :=
  validate_model fields.
Definition model_dump (r : t) : pyval :=
  PDict [(py "virality_score", dump_opt PInt (virality_score r));
         (py "hook_strategy", dump_opt PStr (hook_strategy r));
         (py "target_audience", dump_opt PStr (target_audience r));
         (py "share_trigger", dump_opt PStr (share_trigger r))].
End GlobalViralityAnalysis.

(** [int(x)] for a float: truncation towards zero. *)
Definition float_to_int (f : spec_float) : outcome Z :=
  match f with
  | S754_zero _ => Ok 0%Z
  | S754_finite s m e =>
      let a := if (0 <=? e)%Z then (Zpos m * 2 ^ e)%Z
               else (Zpos m / 2 ^ (- e))%Z in
      Ok (if s then (- a)%Z else a)
  | S754_infinity _ => Raise OverflowError
  | S754_nan => Raise ValueError
  end.

(** The body of [_seconds_to_time_string] after [total_seconds = int(seconds)]. *)
Definition time_string (total_seconds : Z) : str :=
  let hours := (total_seconds / 3600)%Z in
  let minutes := (total_seconds mod 3600 / 60)%Z in
  let secs := (total_seconds mod 60)%Z in
  if (0 <? hours)%Z
  then fmt_02d hours ++ py ":" ++ fmt_02d minutes ++ py ":" ++ fmt_02d secs
  else fmt_02d minutes ++ py ":" ++ fmt_02d secs.

(** [_seconds_to_time_string(seconds)]; [int(seconds)] is written out for
    each type of value that reaches it. *)
Definition _seconds_to_time_string (seconds : pyval) : outcome str :=
  match seconds with
  | PStr s => Ok s
  | PInt n => Ok (time_string n)
  | PBool b => Ok (time_string (Z.b2z b))
  | PFloat f => fmap time_string (float_to_int f)
  | PNone | PList _ | PDict _ => Raise TypeError
  end.

Module TimelineSegment.
Record t : Type := mk {
  segment_id : option str;
  time_range : option TimeRange.t;
  start : option str;
  end_ : option str;
  classification : option Classification.t;
  visual_analysis : option VisualAnalysis.t;
  audio_analysis : option AudioAnalysis.t;
  text_extraction_ocr : option TextExtractionOCR.t;
  engagement_mechanics : option EngagementMechanics.t;
  ir_reconstruction : option IRReconstruction.t
}.
(** [_coerce_segment_id(cls, v)]. *)
Definition _coerce_segment_id `{PyRuntime} (v : pyval) : outcome pyval :=
  match v with
  | PNone => Ok PNone
  | _ => Ok (PStr (py_str v))
  end.
(** [_coerce_text_extraction_ocr(cls, v)]. *)
Definition _coerce_text_extraction_ocr (v : pyval) : outcome pyval :=
  match v with
  | PNone => Ok PNone
  | PList l =>
      if Nat.eqb (List.length l) 0 then Ok PNone
      else Ok (PDict [(py "visible_text", PList l)])
  | _ => Ok v
  end.
(** [_convert_time_to_string(cls, v)]. *)
Definition _convert_time_to_string (v : pyval) : outcome pyval :=
  match v with
  | PNone => Ok PNone
  | PStr s => Ok (PStr s)
  | _ => fmap PStr (_seconds_to_time_string v)
  end.
(** [_coerce_time_range(self)]. *)
Definition _coerce_time_range (self : t) : t :=
  match time_range self, start self, end_ self with
  | None, Some s, Some e =>
      mk (segment_id self) (Some (TimeRange.mk s e)) (start self) (end_ self)
         (classification self) (visual_analysis self) (audio_analysis self)
         (text_extraction_ocr self) (engagement_mechanics self)
         (ir_reconstruction self)
  | _, _, _ => self
  end.
Definition fields `{PyRuntime} (d : dict) : outcome t :=
  Ok mk
  <*> field "segment_id" (before _coerce_segment_id (nullable validate_str))
        None d
  <*> field "time_range" (nullable TimeRange.model_validate) None d
  <*> field "start" (before _convert_time_to_string (nullable validate_str))
        None d
  <*> field "end" (before _convert_time_to_string (nullable validate_str))
        None d
  <*> field "classification" (nullable Classification.model_validate) None d
  <*> field "visual_analysis" (nullable VisualAnalysis.model_validate) None d
  <*> field "audio_analysis" (nullable AudioAnalysis.model_validate) None d
  <*> field "text_extraction_ocr"
        (before _coerce_text_extraction_ocr
           (nullable TextExtractionOCR.model_validate)) None d
  <*> field "engagement_mechanics"
        (nullable EngagementMechanics.model_validate) None d
  <*> field "ir_reconstruction" (nullable IRReconstruction.model_validate)
        None d.
(** The fields first, then the [mode="after"] model validator. *)
Definition model_validate `{PyRuntime} : pyval -> outcome t :=
  validate_model (fun d => fmap _coerce_time_range (fields d)).
Definition model_dump (r : t) : pyval :=
  PDict [(py "segment_id", dump_opt PStr (segment_id r));
         (py "time_range", dump_opt TimeRange.model_dump (time_range r));
         (py "start", dump_opt PStr (start r));
         (py "end", dump_opt PStr (end_ r));
         (py "classification",
          dump_opt Classification.model_dump (classification r));
         (py "visual_analysis",
          dump_opt VisualAnalysis.model_dump (visual_analysis r));
         (py "audio_analysis",
          dump_opt AudioAnalysis.model_dump (audio_analysis r));
         (py "text_extraction_ocr",
          dump_opt TextExtractionOCR.model_dump (text_extraction_ocr r));
         (py "engagement_mechanics",
          dump_opt EngagementMechanics.model_dump (engagement_mechanics r));
         (py "ir_reconstruction",
          dump_opt IRReconstruction.model_dump (ir_reconstruction r))].
End TimelineSegment.

Module ExtractedAction.
Record t : Type := mk {
  action : str;
  timestamp : str
}.
Definition fields (d : dict) : outcome t :=
  Ok mk
  <*> required "action" validate_str d
  <*> required "timestamp" validate_str d.
Definition model_validate : pyval -> outcome t := validate_model fields.
Definition model_dump (r : t) : pyval :=
  PDict [(py "action", PStr (action r)); (py "timestamp", PStr (timestamp r))].
End ExtractedAction.

Module ExtractedEntities.
Record t : Type := mk {
  actions_detected : list ExtractedAction.t;
  key_objects : list str;
  referenced_links : list str
}.
Definition fields (d : dict) : outcome t :=
  Ok mk
  <*> field "actions_detected" (validate_list ExtractedAction.model_validate)
        [] d
  <*> field "key_objects" (validate_list validate_str) [] d
  <*> field "referenced_links" (validate_list validate_str) [] d.
Definition model_validate : pyval -> outcome t := validate_model fields.
Definition model_dump (r : t) : pyval :=
  PDict [(py "actions_detected",
          PList (map ExtractedAction.model_dump (actions_detected r)));
         (py "key_objects", dump_strs (key_objects r));
         (py "referenced_links", dump_strs (referenced_links r))].
End ExtractedEntities.

Module AnalysisResult.
Record t : Type := mk {
  file_info : option FileInfo.t;
  global_analysis : option GlobalAnalysis.t;
  global_virality : option GlobalViralityAnalysis.t;
  timeline_segments : list TimelineSegment.t;
  extracted_entities : option ExtractedEntities.t
}.
Definition fields `{PyRuntime} (d : dict) : outcome t :=
  Ok mk
  <*> field "file_info" (nullable FileInfo.model_validate) None d
  <*> field "global_analysis" (nullable GlobalAnalysis.model_validate) None d
  <*> field "global_virality" (nullable GlobalViralityAnalysis.model_validate)
        None d
  <*> field "timeline_segments"
        (validate_list TimelineSegment.model_validate) [] d
  <*> field "extracted_entities" (nullable ExtractedEntities.model_validate)
        None d.
Definition model_validate `{PyRuntime} : pyval -> outcome t :=
  validate_model fields.
Definition model_dump (r : t) : pyval :=
  PDict [(py "file_info", dump_opt FileInfo.model_dump (file_info r));
         (py "global_analysis",
          dump_opt GlobalAnalysis.model_dump (global_analysis r));
         (py "global_virality",
          dump_opt GlobalViralityAnalysis.model_dump (global_virality r));
         (py "timeline_segments",
          PList (map TimelineSegment.model_dump (timeline_segments r)));
         (py "extracted_entities",
          dump_opt ExtractedEntities.model_dump (extracted_entities r))].
(** The report in which every field has its default. *)
Definition empty : t := mk None None None [] None.
End AnalysisResult.

(** A zero-padded two-digit decimal field, as the claims about the time
    format describe it. *)
Definition two_digits (n : Z) : str :=
  [(48 + Z.to_N (n / 10))%N; (48 + Z.to_N (n mod 10))%N].

(** The whole seconds of a numeric value that has them: an [int], or a
    finite [float] truncated towards zero. *)
Definition whole_seconds (v : pyval) : option Z :=
  match v with
  | PInt n => Some n
  | PFloat f =>
      match float_to_int f with
      | Ok t => Some t
      | Raise _ => None
      end
  | _ => None
  end.

Definition is_dict (v : pyval) : bool :=
  match v with
  | PDict _ => true
  | _ => false
  end.

(* ================================================================== *)
(** * A runtime to run the model on *)
(* ================================================================== *)

(** The integer a float is equal to, if any. *)
Definition integral_float (f : spec_float) : option Z :=
  match f with
  | S754_zero _ => Some 0%Z
  | S754_finite s m e =>
      if (0 <=? e)%Z then Some ((if s then Z.opp else id) (Zpos m * 2 ^ e)%Z)
      else if (Zpos m mod 2 ^ (- e) =? 0)%Z
           then Some ((if s then Z.opp else id) (Zpos m / 2 ^ (- e))%Z)
           else None
  | _ => None
  end.

Fixpoint drop_zeros (rev_digits : str) : str :=
  match rev_digits with
  | 48%N :: rest => drop_zeros rest
  | _ => rev_digits
  end.

(** The exact decimal expansion of [m * 2^e], at least one fraction digit. *)
Definition exact_decimal (m : positive) (e : Z) : str :=
  if (0 <=? e)%Z then int_str (Zpos m * 2 ^ e) ++ py ".0"
  else
    let n := Z.to_nat (- e) in
    let num := (Zpos m * 5 ^ (- e))%Z in
    let whole := (num / 10 ^ (- e))%Z in
    let part := nat_digits (Z.to_N (num mod 10 ^ (- e))) in
    let padded := repeat 48%N (n - List.length part) ++ part in
    let shown := match rev (drop_zeros (rev padded)) with
                 | [] => [48%N]
                 | digits => digits
                 end in
    int_str whole ++ py "." ++ shown.

(** An instance of the runtime, used to run the model on concrete inputs;
    every theorem is proved for all runtimes.  It prints a float by its
    exact decimal expansion (which is the shortest one for, e.g., integral
    floats below [1e16]), quotes a string without escaping, and converts
    between bool, int and float as pydantic's lax mode does; it converts no
    string to a number or a bool. *)
#[export] Instance reference_runtime : PyRuntime := {|
  float_repr := fun f =>
    match f with
    | S754_nan => py "nan"
    | S754_infinity s => if s then py "-inf" else py "inf"
    | S754_zero s => if s then py "-0.0" else py "0.0"
    | S754_finite s m e =>
        (if s then py "-" else []) ++ exact_decimal m e
    end;
  str_repr := fun s => 39%N :: s ++ [39%N];
  int_lax := fun v =>
    match v with
    | PBool b => Some (Z.b2z b)
    | PFloat f => integral_float f
    | _ => None
    end;
  float_lax := fun v =>
    match v with
    | PBool b => Some (binary_normalize 53 1024 (Z.b2z b) 0 false)
    | PInt n =>
        match binary_normalize 53 1024 n 0 false with
        | S754_infinity _ => None
        | f => Some f
        end
    | _ => None
    end;
  bool_lax := fun v =>
    match v with
    | PInt 0 => Some false
    | PInt 1 => Some true
    | PFloat f =>
        match integral_float f with
        | Some 0%Z => Some false
        | Some 1%Z => Some true
        | _ => None
        end
    | _ => None
    end
|}.

(* ================================================================== *)
(** * The callers of the extractor and of the coercer *)
(* ================================================================== *)

(** Subscripts, [.get] and truth of decoded JSON values, with the
    exceptions the callers catch or let through. *)
Module Access.

Inductive error : Type := KeyError | IndexError | TypeError | AttributeError.

Inductive result (A : Type) : Type :=
| Return (a : A)
| Throw (e : error).

Arguments Return {A} a.
Arguments Throw {A} e.

(** [v[k]] for a string [k]. *)
Definition getitem_key (v : pyval) (k : string) : result pyval :=
  match v with
  | PDict d =>
      match dict_get (py k) d with
      | Some x => Return x
      | None => Throw KeyError
      end
  | _ => Throw TypeError
  end.

(** [v[0]]; the keys of a decoded object are strings, never [0]. *)
Definition getitem_0 (v : pyval) : result pyval :=
  match v with
  | PList (x :: _) => Return x
  | PList [] => Throw IndexError
  | PStr (c :: _) => Return (PStr [c])
  | PStr [] => Throw IndexError
  | PDict _ => Throw KeyError
  | _ => Throw TypeError
  end.

(** [v.get(k, default)]: only a dict has the method. *)
Definition get (v : pyval) (k : string) (default : pyval) : result pyval :=
  match v with
  | PDict d =>
      match dict_get (py k) d with
      | Some x => Return x
      | None => Return default
      end
  | _ => Throw AttributeError
  end.

(** [bool(v)]. *)
Definition truthy (v : pyval) : bool :=
  match v with
  | PNone => false
  | PBool b => b
  | PInt n => negb (n =? 0)%Z
  | PFloat (S754_zero _) => false
  | PFloat _ => true
  | PStr s => negb (Nat.eqb (List.length s) 0)
  | PList l => negb (Nat.eqb (List.length l) 0)
  | PDict d => negb (Nat.eqb (List.length d) 0)
  end.

(** [v == "text"]. *)
Definition is_text (v : pyval) : bool :=
  match v with
  | PStr s => str_eqb s (py "text")
  | _ => false
  end.

Definition bind {A B : Type} (x : result A) (f : A -> result B) : result B :=
  match x with
  | Return a => f a
  | Throw e => Throw e
  end.

End Access.

Module openrouter_reply.
Import Access.

(** The loop of [call_openrouter_video] over the parts of a list content:
    [text_out] is the value assigned so far. *)
Fixpoint scan_parts (content : list pyval) (text_out : pyval)
  : result pyval :=
  match content with
  | [] => Return text_out
  | part :: rest =>
      bind (get part "type" PNone) (fun type_ =>
      if is_text type_ then
        bind (get part "text" (PStr [])) (fun text =>
        if truthy text then Return text else scan_parts rest text)
      else scan_parts rest text_out)
  end.

(** The body of the [try] of [call_openrouter_video]. *)
Definition try_text_out (resp_json : pyval) : result pyval :=
  bind (getitem_key resp_json "choices") (fun choices =>
  bind (getitem_0 choices) (fun choice =>
  bind (getitem_key choice "message") (fun message =>
  bind (getitem_key message "content") (fun content =>
  match content with
  | PList parts => scan_parts parts (PStr [])
  | PStr s => Return (PStr s)
  | _ => Return (PStr [])
  end)))).

(** [text_out] as [call_openrouter_video] computes it from the decoded
    response [resp_json], i.e. what follows [resp.json()]:
    [KeyError], [IndexError] and [TypeError] are caught. *)
Definition text_out (resp_json : pyval) : result pyval :=
  match try_text_out resp_json with
  | Throw KeyError | Throw IndexError | Throw TypeError => Return (PStr [])
  | r => r
  end.

(** What [call_openrouter_video] returns after the HTTP round trip. *)
Definition call_openrouter_video_result (resp_json : pyval) : result pyval :=
  bind (text_out resp_json) (fun text =>
  Return (PDict [(py "raw", resp_json); (py "text", text)])).

End openrouter_reply.

Module openrouter_analysis.
Import Access.

(** How a call ends: with a value, with an exception of the lookups, or
    with an exception of the validation. *)
Inductive ended (A : Type) : Type :=
| Done (a : A)
| LookupFailed (e : Access.error)
| ValidationFailed (e : exn).

Arguments Done {A} a.
Arguments LookupFailed {A} e.
Arguments ValidationFailed {A} e.

(** [analyze_video_with_openrouter] from the result of
    [call_openrouter_video] on: the text is parsed and validated, and the
    report is returned with the raw response.  A text that is not a [str]
    has no [strip] method. *)
Definition analyze_video_with_openrouter `{PyRuntime} (result : pyval)
  : ended (AnalysisResult.t * pyval) :=
  match get result "text" (PStr []) with
  | Throw e => LookupFailed e
  | Return t =>
      let text := if truthy t then t else PStr [] in
      match text with
      | PStr s =>
          let payload := openrouter_client.parse_json_from_model_text s in
          match AnalysisResult.model_validate payload with
          | Ok analysis_result =>
              match get result "raw" (PDict []) with
              | Return raw =>
                  Done (analysis_result,
                        PDict [(py "raw", raw); (py "text", text);
                               (py "parsed_json", payload)])
              | Throw e => LookupFailed e
              end
          | Raise e => ValidationFailed e
          end
      | _ => LookupFailed AttributeError
      end
  end.

(** [analyze_video_with_openrouter] from the decoded response on. *)
Definition analyze_response `{PyRuntime} (resp_json : pyval)
  : ended (AnalysisResult.t * pyval) :=
  match openrouter_reply.call_openrouter_video_result resp_json with
  | Return result => analyze_video_with_openrouter result
  | Throw e => LookupFailed e
  end.

End openrouter_analysis.

Module video_llm_calls.

(** [analyze_video_structure] from the model's response on;
    [response_text] is [getattr(response, "text", "")], with [None] for a
    missing or null attribute. *)
Definition analyze_video_structure `{PyRuntime} (response_text : option str)
  : outcome AnalysisResult.t :=
  let text := match response_text with
              | Some (c :: s) => c :: s
              | _ => []
              end in
  let payload := video_llm_integration._parse_json_safe text in
  AnalysisResult.model_validate payload.


End video_llm_calls.

Module main.
Import Access.


End main.

(** [resp_json["choices"][0]["message"]["content"]]. *)
Definition content_of (resp_json : pyval) : Access.result pyval :=
  Access.bind (Access.getitem_key resp_json "choices") (fun choices =>
  Access.bind (Access.getitem_0 choices) (fun choice =>
  Access.bind (Access.getitem_key choice "message") (fun message =>
  Access.getitem_key message "content"))).

(** The names of the fields of [AnalysisResult] and of [TimelineSegment]. *)
Definition report_fields : list string :=
  ["file_info"; "global_analysis"; "global_virality"; "timeline_segments";
   "extracted_entities"].

Definition segment_fields : list string :=
  ["segment_id"; "time_range"; "start"; "end"; "classification";
   "visual_analysis"; "audio_analysis"; "text_extraction_ocr";
   "engagement_mechanics"; "ir_reconstruction"].

Definition is_str (v : pyval) : bool :=
  match v with
  | PStr _ => true
  | _ => false
  end.

(** The first item that is true, or else the last item, or else [d]. *)
Fixpoint first_true_or_last (d : pyval) (l : list pyval) : pyval :=
  match l with
  | [] => d
  | x :: rest => if Access.truthy x then x else first_true_or_last x rest
  end.

(** The texts of the parts of type ["text"], in order. *)
Definition text_parts (parts : list dict) : list pyval :=
  map (fun d => match dict_get (py "text") d with
                | Some t => t
                | None => PStr []
                end)
      (filter (fun d => match dict_get (py "type") d with
                        | Some ty => Access.is_text ty
                        | None => false
                        end) parts).

(* ================================================================== *)
(** * The data URL of a video *)
(* ================================================================== *)

Module data_url.

(** The base64 alphabet of RFC 4648, as [base64.b64encode] uses it. *)
Definition alphabet (i : N) : N :=
  if (i <? 26)%N then (65 + i)%N
  else if (i <? 52)%N then (71 + i)%N
  else if (i <? 62)%N then (i - 4)%N
  else if (i =? 62)%N then 43%N
  else 47%N.

Definition pad : N := 61.

(** [base64.b64encode(data).decode("utf-8")]. *)
Fixpoint b64encode (data : list Byte.byte) : str :=
  match data with
  | [] => []
  | [x] =>
      let a := Byte.to_N x in
      [alphabet (a / 4); alphabet (a mod 4 * 16); pad; pad]
  | [x; y] =>
      let a := Byte.to_N x in
      let b := Byte.to_N y in
      [alphabet (a / 4); alphabet (a mod 4 * 16 + b / 16);
       alphabet (b mod 16 * 4); pad]
  | x :: y :: z :: rest =>
      let a := Byte.to_N x in
      let b := Byte.to_N y in
      let c := Byte.to_N z in
      alphabet (a / 4) :: alphabet (a mod 4 * 16 + b / 16)
      :: alphabet (b mod 16 * 4 + c / 64) :: alphabet (c mod 64)
      :: b64encode rest
  end%N.

(** [_encode_video_to_data_url(video_bytes, mime_type)]. *)
Definition _encode_video_to_data_url (video_bytes : list Byte.byte)
    (mime_type : str) : str :=
  let b64 := b64encode video_bytes in
  py "data:" ++ mime_type ++ py ";base64," ++ b64.

End data_url.

(** The inverse of the base64 alphabet and of the encoding, in which the
    round trip of the data URL's payload is stated. *)
Definition unalphabet (c : N) : N :=
  if ((65 <=? c) && (c <=? 90))%N then (c - 65)%N
  else if ((97 <=? c) && (c <=? 122))%N then (c - 71)%N
  else if ((48 <=? c) && (c <=? 57))%N then (c + 4)%N
  else if (c =? 43)%N then 62%N
  else 63%N.

Fixpoint b64decode (s : str) : list N :=
  match s with
  | c0 :: c1 :: c2 :: c3 :: rest =>
      let s0 := unalphabet c0 in
      let s1 := unalphabet c1 in
      let s2 := unalphabet c2 in
      let s3 := unalphabet c3 in
      if (c2 =? data_url.pad)%N then [s0 * 4 + s1 / 16]
      else if (c3 =? data_url.pad)%N
           then [s0 * 4 + s1 / 16; s1 mod 16 * 16 + s2 / 4]
           else (s0 * 4 + s1 / 16) :: (s1 mod 16 * 16 + s2 / 4)
                :: (s2 mod 4 * 64 + s3) :: b64decode rest
  | _ => []
  end%N.

(* ================================================================== *)
(** * Properties of the string operations *)
(* ================================================================== *)

Unset Implicit Arguments.

Lemma lstrip_app_space (w s : str) :
  forallb isspace w = true -> lstrip (w ++ s) = lstrip s.
Proof.
  induction w as [|c w IH]; simpl; intros Hw; [reflexivity|].
  apply andb_true_iff in Hw as [Hc Hw]. rewrite Hc. auto.
Qed.

Lemma lstrip_split (s : str) :
  exists w, s = w ++ lstrip s /\ forallb isspace w = true.
Proof.
  induction s as [|c s [w [Hs Hw]]]; simpl.
  - exists []. auto.
  - destruct (isspace c) eqn:Hc.
    + exists (c :: w). simpl. rewrite Hc, Hw. split; [f_equal; exact Hs|reflexivity].
    + exists []. auto.
Qed.

Lemma lstrip_app_keep (a b : str) :
  lstrip a <> [] -> lstrip (a ++ b) = lstrip a ++ b.
Proof.
  induction a as [|c a IH]; simpl; intros Ha; [congruence|].
  destruct (isspace c); auto.
Qed.

Lemma forallb_isspace_rev (w : str) :
  forallb isspace w = true -> forallb isspace (rev w) = true.
Proof.
  rewrite !forallb_forall. intros Hw c Hc. apply Hw, in_rev, Hc.
Qed.

Lemma rstrip_app_space (s w : str) :
  forallb isspace w = true -> rstrip (s ++ w) = rstrip s.
Proof.
  intros Hw. unfold rstrip. rewrite rev_app_distr.
  rewrite lstrip_app_space; auto using forallb_isspace_rev.
Qed.

Lemma rstrip_split (s : str) :
  exists w, s = rstrip s ++ w /\ forallb isspace w = true.
Proof.
  destruct (lstrip_split (rev s)) as [w [Hs Hw]].
  exists (rev w). split; [|auto using forallb_isspace_rev].
  unfold rstrip. rewrite <- rev_app_distr, <- Hs, rev_involutive. reflexivity.
Qed.

Lemma rstrip_app_keep (a b : str) :
  rstrip b <> [] -> rstrip (a ++ b) = a ++ rstrip b.
Proof.
  unfold rstrip. intros Hb. rewrite rev_app_distr, lstrip_app_keep.
  - rewrite rev_app_distr, rev_involutive. reflexivity.
  - intros E. apply Hb. rewrite E. reflexivity.
Qed.

Lemma rstrip_snoc (s : str) (c : N) :
  isspace c = false -> rstrip (s ++ [c]) = s ++ [c].
Proof.
  intros Hc. unfold rstrip. rewrite rev_app_distr. simpl. rewrite Hc.
  simpl. rewrite rev_involutive. reflexivity.
Qed.

Lemma rstrip_idem (s : str) : rstrip (rstrip s) = rstrip s.
Proof.
  unfold rstrip. rewrite rev_involutive. f_equal.
  induction (rev s) as [|c r IH]; simpl; [reflexivity|].
  destruct (isspace c) eqn:Hc; [exact IH|]. simpl. rewrite Hc. reflexivity.
Qed.

Lemma rstrip_nil_or_last (s : str) :
  rstrip s = [] \/ exists t c, rstrip s = t ++ [c] /\ isspace c = false.
Proof.
  unfold rstrip.
  assert (H : forall r, lstrip r = [] \/
                        exists c r', lstrip r = c :: r' /\ isspace c = false).
  { induction r as [|c r IH]; simpl; [auto|].
    destruct (isspace c) eqn:Hc; [exact IH|]. right. eauto. }
  destruct (H (rev s)) as [E | [c [r' [E Hc]]]]; rewrite E; simpl; eauto.
Qed.

Lemma rstrip_cons_keep (c : N) (s : str) :
  isspace c = false -> exists t, rstrip (c :: s) = c :: t.
Proof.
  intros Hc. destruct (rstrip_nil_or_last s) as [E | [t [x [E Hx]]]].
  - destruct (rstrip_split s) as [w [Hs Hw]]. rewrite E in Hs. simpl in Hs.
    subst w. change (c :: s) with ([c] ++ s).
    rewrite rstrip_app_space by assumption.
    change [c] with ([] ++ [c]). rewrite rstrip_snoc by assumption.
    exists []. reflexivity.
  - change (c :: s) with ([c] ++ s). rewrite rstrip_app_keep.
    + simpl. eauto.
    + rewrite E. destruct t; discriminate.
Qed.

(** Trimming removes exactly a frame of white space around a text that
    begins and ends with other characters. *)
Lemma strip_framed (w1 w2 x : str) (c : N) :
  forallb isspace w1 = true -> forallb isspace w2 = true ->
  isspace c = false -> rstrip (c :: x) = c :: x ->
  strip (w1 ++ (c :: x) ++ w2) = c :: x.
Proof.
  intros H1 H2 Hc Hx. unfold strip.
  rewrite lstrip_app_space by assumption. simpl. rewrite Hc.
  change (c :: x ++ w2) with ((c :: x) ++ w2).
  rewrite rstrip_app_space by assumption. exact Hx.
Qed.

Lemma startswith_app (p s : str) : startswith p (p ++ s) = true.
Proof.
  induction p as [|x p IH]; simpl; [reflexivity|].
  rewrite N.eqb_refl. exact IH.
Qed.

Lemma startswith_inv (p s : str) :
  startswith p s = true -> exists t, s = p ++ t.
Proof.
  revert s. induction p as [|x p IH]; intros s H; simpl in *.
  - eauto.
  - destruct s as [|y s]; [discriminate|].
    apply andb_true_iff in H as [Hxy H]. apply N.eqb_eq in Hxy. subst y.
    destruct (IH _ H) as [t ->]. eauto.
Qed.

Lemma endswith_app (p s : str) : endswith p (s ++ p) = true.
Proof.
  unfold endswith. rewrite rev_app_distr. apply startswith_app.
Qed.

Lemma endswith_inv (p s : str) :
  endswith p s = true -> exists t, s = t ++ p.
Proof.
  unfold endswith. intros H. apply startswith_inv in H as [t Ht].
  exists (rev t). rewrite <- (rev_involutive s), Ht, rev_app_distr.
  rewrite rev_involutive. reflexivity.
Qed.

Lemma slice_drop_last_app (s p : str) :
  slice_drop_last (List.length p) (s ++ p) = s.
Proof.
  unfold slice_drop_last. rewrite length_app.
  replace (List.length s + List.length p - List.length p)
    with (List.length s + 0) by lia.
  rewrite firstn_app_2. simpl. apply app_nil_r.
Qed.

Lemma find_app_absent (c : N) (a b : str) :
  find c a = (-1)%Z ->
  find c (a ++ c :: b) = Z.of_nat (List.length a).
Proof.
  induction a as [|x a IH]; simpl.
  - intros _. rewrite N.eqb_refl. reflexivity.
  - destruct (N.eqb x c); [discriminate|].
    destruct (find c a =? -1)%Z eqn:E; [|intros H; exfalso].
    + intros _. apply Z.eqb_eq in E. rewrite (IH E).
      destruct (Z.of_nat (List.length a) =? -1)%Z eqn:E'; [|lia].
      apply Z.eqb_eq in E'. lia.
    + apply Z.eqb_neq in E.
      assert (Hge : forall l, (-1 <= find c l)%Z).
      { induction l as [|y l IHl]; simpl; [lia|].
        destruct (N.eqb y c); [lia|].
        destruct (find c l =? -1)%Z; lia. }
      specialize (Hge a). lia.
Qed.

Lemma slice_from_app (a b : str) (c : N) :
  slice_from (Z.of_nat (List.length a) + 1) (a ++ c :: b) = b.
Proof.
  unfold slice_from.
  replace (Z.to_nat (Z.of_nat (List.length a) + 1)) with (List.length a + 1)
    by lia.
  rewrite skipn_app.
  rewrite (skipn_all2 a) by lia.
  replace (List.length a + 1 - List.length a) with 1 by lia. reflexivity.
Qed.

(* ================================================================== *)
(** * Properties of the JSON decoder *)
(* ================================================================== *)

Lemma isspace_range (c : N) :
  isspace c = true -> (c <= 32 \/ 133 <= c)%N.
Proof.
  unfold isspace. rewrite !orb_true_iff, !andb_true_iff, !N.leb_le, !N.eqb_eq.
  lia.
Qed.

Lemma space_not_ascii (c k : N) :
  isspace c = true -> (33 <= k <= 127)%N -> (c =? k)%N = false.
Proof.
  intros Hc Hk. apply isspace_range in Hc. apply N.eqb_neq. lia.
Qed.

Lemma space_digit (c : N) : isspace c = true -> Json.digit_val c = None.
Proof.
  intros Hc. apply isspace_range in Hc. unfold Json.digit_val.
  destruct (48 <=? c)%N eqn:E1; destruct (c <=? 57)%N eqn:E2; simpl; auto.
  apply N.leb_le in E1, E2. lia.
Qed.

Lemma space_hex (c : N) : isspace c = true -> Json.hex_val c = None.
Proof.
  intros Hc. apply isspace_range in Hc. unfold Json.hex_val.
  destruct (48 <=? c)%N eqn:E1; destruct (c <=? 57)%N eqn:E2;
  destruct (97 <=? c)%N eqn:E3; destruct (c <=? 102)%N eqn:E4;
  destruct (65 <=? c)%N eqn:E5; destruct (c <=? 70)%N eqn:E6; simpl; auto;
  apply N.leb_le in E1 || apply N.leb_le in E3 || apply N.leb_le in E5;
  apply N.leb_le in E2 || apply N.leb_le in E4 || apply N.leb_le in E6; lia.
Qed.

Lemma space_is_e (c : N) : isspace c = true -> Json.is_e c = false.
Proof.
  intros Hc. unfold Json.is_e.
  rewrite !(space_not_ascii c _ Hc) by lia. reflexivity.
Qed.

Ltac space_simpl Hc :=
  repeat (rewrite (space_digit _ Hc) in *
          || rewrite (space_hex _ Hc) in *
          || rewrite (space_is_e _ Hc) in *
          || match goal with
             | H : context [N.eqb _ ?k] |- _ =>
                 rewrite (space_not_ascii _ k Hc) in H by lia
             end).

Lemma feed_None (s : str) : Json.feed None s = None.
Proof. induction s; simpl; auto. Qed.

Lemma feed_app (q : option Json.state) (a b : str) :
  Json.feed q (a ++ b) = Json.feed (Json.feed q a) b.
Proof. revert q. induction a; simpl; auto. Qed.

(** White space after a complete document changes nothing, and white
    space can never complete a document. *)
Lemma step_space_finish (q : option Json.state) (c : N) (v : pyval) :
  isspace c = true ->
  Json.finish (Json.step' q c) = Some v -> Json.finish q = Some v.
Proof.
  intros Hc Hf. destruct q as [[stk m]|]; [|discriminate].
  destruct m; simpl in Hf.
  - unfold Json.step_value in Hf.
    destruct (Json.is_ws c); [discriminate|]. space_simpl Hc. discriminate.
  - unfold Json.step_key in Hf.
    destruct (Json.is_ws c); [discriminate|]. space_simpl Hc. discriminate.
  - destruct (Json.is_ws c); [discriminate|]. space_simpl Hc. discriminate.
  - unfold Json.step_after in Hf.
    destruct (Json.is_ws c); [discriminate|]. space_simpl Hc. discriminate.
  - unfold Json.step_done in Hf.
    destruct (Json.is_ws c); [exact Hf|discriminate].
  - unfold Json.step_lit in Hf.
    destruct (nth_error (Json.lit_rest l) k) as [x|] eqn:Ex; [|discriminate].
    assert (Hx : (33 <= x <= 127)%N).
    { apply nth_error_In in Ex.
      destruct l; simpl in Ex; repeat (destruct Ex as [<-|Ex]; [lia|]);
      contradiction. }
    rewrite (space_not_ascii c x Hc Hx) in Hf. discriminate.
  - unfold Json.step_num in Hf.
    assert (Hres : forall w,
      Json.finish (Json.resume (Json.complete stk w) c) = Some v ->
      exists s', Json.complete stk w = Some (s', Json.MDone v)).
    { intros w Hw. destruct (Json.complete stk w) as [[s' m']|]; [|discriminate].
      destruct m'; simpl in Hw; try discriminate.
      - unfold Json.step_after in Hw.
        destruct (Json.is_ws c); [discriminate|]. space_simpl Hc.
        discriminate.
      - unfold Json.step_done in Hw.
        destruct (Json.is_ws c); [|discriminate]. simpl in Hw.
        injection Hw as ->. eauto. }
    destruct st; space_simpl Hc; try discriminate;
      apply Hres in Hf as [s' Hs']; unfold Json.finish, Json.num_final;
      rewrite Hs'; reflexivity.
  - unfold Json.step_str in Hf. space_simpl Hc.
    destruct (c <? 32)%N; discriminate.
  - unfold Json.step_esc in Hf. space_simpl Hc. discriminate.
  - unfold Json.step_uni in Hf. space_simpl Hc. discriminate.
Qed.

Lemma feed_space_finish (q : option Json.state) (w : str) (v : pyval) :
  forallb isspace w = true ->
  Json.finish (Json.feed q w) = Some v -> Json.finish q = Some v.
Proof.
  revert q. induction w as [|c w IH]; simpl; intros q Hw Hf; [exact Hf|].
  apply andb_true_iff in Hw as [Hc Hw].
  eapply step_space_finish; eauto.
Qed.

Lemma step_init_space (c : N) :
  isspace c = true ->
  Json.step' Json.init c = Json.init \/ Json.step' Json.init c = None.
Proof.
  intros Hc. simpl. unfold Json.step_value.
  destruct (Json.is_ws c); [left; reflexivity|right].
  match goal with |- ?r = None => destruct r eqn:E; [|reflexivity] end.
  space_simpl Hc. discriminate.
Qed.

Lemma loads_lstrip (s : str) (v : pyval) :
  Json.loads s = Some v -> Json.loads (lstrip s) = Some v.
Proof.
  induction s as [|c s IH]; simpl; intros H; [exact H|].
  destruct (isspace c) eqn:Hc; [|exact H].
  apply IH. unfold Json.loads in *.
  change (Json.feed Json.init (c :: s))
    with (Json.feed (Json.step' Json.init c) s) in H.
  destruct (step_init_space c Hc) as [E|E]; rewrite E in H.
  - exact H.
  - rewrite feed_None in H. discriminate.
Qed.

Lemma loads_rstrip (s : str) (v : pyval) :
  Json.loads s = Some v -> Json.loads (rstrip s) = Some v.
Proof.
  intros H. destruct (rstrip_split s) as [w [Hs Hw]].
  rewrite Hs in H. unfold Json.loads in *. rewrite feed_app in H.
  eapply feed_space_finish; eauto.
Qed.

(** A document decodes to the same value with and without the white
    space around it. *)
Lemma loads_strip (s : str) (v : pyval) :
  Json.loads s = Some v -> Json.loads (strip s) = Some v.
Proof. intros H. unfold strip. auto using loads_rstrip, loads_lstrip. Qed.

Lemma loads_nil : Json.loads [] = None.
Proof. reflexivity. Qed.

Lemma loads_backtick (s : str) : Json.loads (backtick :: s) = None.
Proof. unfold Json.loads. simpl. rewrite feed_None. reflexivity. Qed.

(** No document ends right after a backtick. *)
Lemma finish_step_backtick (q : option Json.state) :
  Json.finish (Json.step' q backtick) = None.
Proof.
  destruct q as [[stk m]|]; [|reflexivity].
  destruct m; simpl; try reflexivity.
  - unfold Json.step_lit.
    destruct (nth_error (Json.lit_rest l) k) as [x|] eqn:Ex; [|reflexivity].
    destruct (backtick =? x)%N eqn:E; [|reflexivity].
    apply N.eqb_eq in E. subst x. apply nth_error_In in Ex.
    destruct l; simpl in Ex; repeat (destruct Ex as [Ex|Ex]; [discriminate|]);
    contradiction.
  - unfold Json.step_num.
    assert (Hres : forall w,
      Json.finish (Json.resume (Json.complete stk w) backtick) = None).
    { intros w. destruct (Json.complete stk w) as [[s' m']|]; [|reflexivity].
      destruct m'; reflexivity. }
    destruct st; simpl; auto.
Qed.

Lemma loads_fence_end (x w : str) :
  forallb isspace w = true -> Json.loads ((x ++ fence) ++ w) = None.
Proof.
  intros Hw. destruct (Json.loads ((x ++ fence) ++ w)) as [v|] eqn:E;
    [|reflexivity].
  unfold Json.loads in E. rewrite feed_app in E.
  apply feed_space_finish in E; [|assumption].
  replace (x ++ fence) with ((x ++ [backtick; backtick]) ++ [backtick]) in E
    by (rewrite <- app_assoc; reflexivity).
  rewrite feed_app in E. simpl in E. rewrite finish_step_backtick in E.
  discriminate.
Qed.

(* ================================================================== *)
(** * The raw-text extractor *)
(* ================================================================== *)

Import openrouter_client video_llm_integration.

Lemma parse_json_from_model_text_unfold (text : str) :
  parse_json_from_model_text text =
  match Json.loads (fence_stripped text) with
  | Some v => v
  | None => error_envelope (fence_stripped text)
  end.
Proof.
  unfold parse_json_from_model_text, fence_stripped, drop_closing_fence,
    drop_first_line, error_envelope.
  destruct (startswith fence (strip text)); [|reflexivity].
  destruct (find newline (strip text) =? -1)%Z; reflexivity.
Qed.

(** The two extractors are the same function. *)
Lemma _parse_json_safe_agrees (text : str) :
  _parse_json_safe text = parse_json_from_model_text text.
Proof. reflexivity. Qed.

Lemma lstrip_head (s t : str) (c : N) :
  lstrip s = c :: t -> isspace c = false.
Proof.
  induction s as [|x s IH]; simpl; [discriminate|].
  destruct (isspace x) eqn:Hx; [exact IH|]. intros E. congruence.
Qed.

Lemma lstrip_nil_space (s : str) : lstrip s = [] -> forallb isspace s = true.
Proof.
  induction s as [|x s IH]; simpl; [reflexivity|].
  destruct (isspace x); [exact IH|discriminate].
Qed.

Lemma strip_frame (w1 w2 s : str) :
  forallb isspace w1 = true -> forallb isspace w2 = true ->
  strip (w1 ++ s ++ w2) = strip s.
Proof.
  intros H1 H2. unfold strip. rewrite lstrip_app_space by assumption.
  destruct (lstrip s) as [|c t] eqn:E.
  - apply lstrip_nil_space in E.
    assert (Hall : forallb isspace (s ++ w2) = true)
      by (rewrite forallb_app, E, H2; reflexivity).
    destruct (lstrip_split (s ++ w2)) as [w [Hs Hw]].
    rewrite <- (app_nil_r (s ++ w2)), lstrip_app_space by assumption.
    reflexivity.
  - rewrite lstrip_app_keep by (rewrite E; discriminate).
    rewrite E. apply rstrip_app_space. assumption.
Qed.

Lemma strip_idem_r (s : str) : rstrip (strip s) = strip s.
Proof. unfold strip. apply rstrip_idem. Qed.

(** The trimmed form of a text that decodes: not empty, no white space at
    either end, not a fence at either end. *)
Lemma loads_strip_shape (s : str) (v : pyval) :
  Json.loads s = Some v ->
  strip s <> [] /\ startswith fence (strip s) = false
  /\ endswith fence (strip s) = false.
Proof.
  intros H. apply loads_strip in H. repeat split.
  - intros E. rewrite E in H. discriminate.
  - destruct (startswith fence (strip s)) eqn:E; [|reflexivity].
    apply startswith_inv in E as [t Ht]. rewrite Ht in H.
    simpl in H. rewrite loads_backtick in H. discriminate.
  - destruct (endswith fence (strip s)) eqn:E; [|reflexivity].
    apply endswith_inv in E as [t Ht].
    rewrite <- (app_nil_r (strip s)), Ht, loads_fence_end in H by reflexivity.
    discriminate.
Qed.

Lemma find_fence_line (tag rest : str) :
  find newline tag = (-1)%Z ->
  find newline (fence ++ tag ++ newline :: rest)
  = Z.of_nat (List.length (fence ++ tag)).
Proof.
  intros Ht. rewrite app_assoc. apply find_app_absent.
  simpl. rewrite Ht. reflexivity.
Qed.

Lemma fence_stripped_fenced (tag rest : str) :
  find newline tag = (-1)%Z ->
  rstrip (fence ++ tag ++ newline :: rest) = fence ++ tag ++ newline :: rest ->
  fence_stripped (fence ++ tag ++ newline :: rest) = drop_closing_fence rest.
Proof.
  intros Ht Hr. unfold fence_stripped.
  assert (Hs : strip (fence ++ tag ++ newline :: rest)
               = fence ++ tag ++ newline :: rest).
  { unfold strip. simpl. exact Hr. }
  rewrite Hs, startswith_app. unfold drop_first_line.
  rewrite find_fence_line by assumption.
  destruct (Z.of_nat (List.length (fence ++ tag)) =? -1)%Z eqn:E;
    [apply Z.eqb_eq in E; lia|].
  rewrite app_assoc, slice_from_app. reflexivity.
Qed.

Lemma fence_stripped_frame (w1 w2 s : str) :
  forallb isspace w1 = true -> forallb isspace w2 = true ->
  fence_stripped (w1 ++ s ++ w2) = fence_stripped s.
Proof.
  intros H1 H2. unfold fence_stripped. rewrite strip_frame by assumption.
  reflexivity.
Qed.

Lemma strip_idem (s : str) : strip (strip s) = strip s.
Proof.
  pose proof (strip_idem_r s) as Hr.
  destruct (strip s) as [|c t] eqn:E; [reflexivity|].
  assert (Hc : isspace c = false).
  { unfold strip in E. destruct (lstrip s) as [|c' t'] eqn:E'; [discriminate|].
    pose proof (lstrip_head _ _ _ E') as Hc'.
    destruct (rstrip_cons_keep c' t' Hc') as [u Hu]. congruence. }
  unfold strip. simpl. rewrite Hc. exact Hr.
Qed.

Lemma fence_stripped_strip (s : str) :
  fence_stripped (strip s) = fence_stripped s.
Proof. unfold fence_stripped. rewrite strip_idem. reflexivity. Qed.



(** C3.  A text [body] that decodes to [v] is extracted as [v] when it
    stands alone, when it follows a fence line (three backticks and a tag
    without line break) and is closed by a fence, and when it follows a
    fence line and is not closed; white space may surround the whole. *)
Theorem C3_valid_json_is_extracted (w1 w2 tag body : str) (v : pyval) :
  forallb isspace w1 = true ->
  forallb isspace w2 = true ->
  find newline tag = (-1)%Z ->
  Json.loads body = Some v ->
  let opening := fence ++ tag ++ [newline] in
  (parse_json_from_model_text (w1 ++ body ++ w2) = v
   /\ _parse_json_safe (w1 ++ body ++ w2) = v)
  /\ (parse_json_from_model_text (w1 ++ (opening ++ body ++ fence) ++ w2) = v
      /\ _parse_json_safe (w1 ++ (opening ++ body ++ fence) ++ w2) = v)
  /\ (parse_json_from_model_text (w1 ++ (opening ++ body) ++ w2) = v
      /\ _parse_json_safe (w1 ++ (opening ++ body) ++ w2) = v).
Proof.
  intros H1 H2 Htag Hbody opening.
  change _parse_json_safe with parse_json_from_model_text.
  assert (Hgoal : forall s, Json.loads (fence_stripped s) = Some v ->
            parse_json_from_model_text s = v).
  { intros s Hs. rewrite parse_json_from_model_text_unfold, Hs. auto. }
  destruct (loads_strip_shape body v Hbody) as [Hne [Hstart Hend]].
  cut (Json.loads (fence_stripped body) = Some v
       /\ Json.loads (fence_stripped (opening ++ body ++ fence)) = Some v
       /\ Json.loads (fence_stripped (opening ++ body)) = Some v).
  { intros [Ha [Hb Hc]].
    repeat split; apply Hgoal; rewrite fence_stripped_frame by assumption;
      assumption. }
  repeat split.
  - (* bare *)
    unfold fence_stripped. rewrite Hstart. apply loads_strip, Hbody.
  - (* fenced and closed *)
    unfold opening. rewrite <- !app_assoc. simpl ([newline] ++ _).
    rewrite fence_stripped_fenced; [|assumption|].
    + unfold drop_closing_fence.
      replace (body ++ fence)
        with ((body ++ [backtick; backtick]) ++ [backtick])
        by (rewrite <- app_assoc; reflexivity).
      rewrite rstrip_snoc by reflexivity.
      replace ((body ++ [backtick; backtick]) ++ [backtick])
        with (body ++ fence) by (rewrite <- app_assoc; reflexivity).
      rewrite endswith_app.
      change 3 with (List.length fence). rewrite slice_drop_last_app.
      exact Hbody.
    + replace (fence ++ tag ++ newline :: body ++ fence)
        with ((fence ++ tag ++ newline :: body ++ [backtick; backtick])
              ++ [backtick])
        by (rewrite <- !app_assoc; simpl; rewrite <- !app_assoc; reflexivity).
      apply rstrip_snoc. reflexivity.
  - (* fenced, not closed *)
    rewrite <- fence_stripped_strip.
    assert (Hs : strip (opening ++ body)
                 = fence ++ tag ++ newline :: rstrip body).
    { unfold strip, opening. simpl lstrip.
      change (backtick :: backtick :: backtick :: (tag ++ [newline]) ++ body)
        with (fence ++ (tag ++ [newline]) ++ body).
      rewrite !app_assoc. rewrite rstrip_app_keep.
      - rewrite <- !app_assoc. reflexivity.
      - intros E. apply Hne. unfold strip.
        destruct (lstrip_split body) as [w [Hb Hw]].
        destruct (rstrip_split (lstrip body)) as [w' [Hb' Hw']].
        assert (Hall : forallb isspace body = true).
        { destruct (rstrip_split body) as [w'' [Hb'' Hw'']].
          rewrite E in Hb''. simpl in Hb''. congruence. }
        rewrite <- (app_nil_r body), lstrip_app_space by assumption.
        reflexivity. }
    rewrite Hs.
    assert (Hrb : rstrip body <> []).
    { intros E. apply loads_rstrip in Hbody. rewrite E in Hbody.
      discriminate. }
    rewrite fence_stripped_fenced; [|assumption|].
    + unfold drop_closing_fence. rewrite rstrip_idem.
      destruct (endswith fence (rstrip body)) eqn:E.
      * apply endswith_inv in E as [t Ht].
        apply loads_rstrip in Hbody.
        rewrite <- (app_nil_r (rstrip body)), Ht, loads_fence_end in Hbody
          by reflexivity.
        discriminate.
      * apply loads_rstrip, Hbody.
    + rewrite app_assoc.
      change (newline :: rstrip body) with ([newline] ++ rstrip body).
      rewrite app_assoc.
      rewrite rstrip_app_keep by (rewrite rstrip_idem; assumption).
      rewrite rstrip_idem. reflexivity.
Qed.

Lemma C3_witness_fenced_object :
  let body := pyj "{'a': 1}" ++ [newline] in
  let v := PDict [(py "a", PInt 1)] in
  (forallb isspace [32%N] = true /\ forallb isspace [newline] = true
   /\ find newline (py "json") = (-1)%Z /\ Json.loads body = Some v)
  /\ parse_json_from_model_text
       ([32%N] ++ ((fence ++ py "json" ++ [newline]) ++ body ++ fence)
        ++ [newline]) = v.
Proof.
  intros body v. split; [repeat split|].
  apply (C3_valid_json_is_extracted [32%N] [newline] (py "json") body v);
    reflexivity.
Defined.

(** With a fence and no line break, only a closing fence is removed, and
    what is left never decodes. *)
Lemma loads_fence_no_newline (t : str) :
  startswith fence t = true ->
  let raw := if endswith fence t then slice_drop_last 3 t else t in
  Json.loads raw = None
  /\ (endswith fence t = false \/ 6 <= List.length t ->
      startswith fence raw = true).
Proof.
  intros Hs raw. unfold raw.
  apply startswith_inv in Hs as Ht. destruct Ht as [t' Ht].
  destruct (endswith fence t) eqn:E.
  - apply endswith_inv in E as [x Hx]. subst t.
    change 3 with (List.length fence).
    rewrite slice_drop_last_app. split.
    + destruct x as [|c x]; [reflexivity|].
      injection Ht as ->. apply loads_backtick.
    + intros [Hf|Hlen]; [discriminate|].
      rewrite length_app in Hlen. simpl in Hlen.
      destruct x as [|a [|b [|c x]]]; simpl in Hlen; try lia.
      injection Ht as -> -> ->. reflexivity.
  - split.
    + subst t. apply loads_backtick.
    + intros _. exact Hs.
Qed.

(** C10 (as amended).  When the trimmed text begins with a fence and has no
    line break, the opening fence is kept; a closing fence, if the text
    ends with one, is still removed.  Decoding what is left always fails,
    so the result is the error envelope around it.  Its raw text begins
    with the three backticks unless they were the closing fence themselves
    (a trimmed text of fewer than six characters that ends with a fence). *)
Theorem C10_single_line_fence (s : str) :
  startswith fence (strip s) = true ->
  find newline (strip s) = (-1)%Z ->
  let raw := if endswith fence (strip s)
             then slice_drop_last 3 (strip s) else strip s in
  parse_json_from_model_text s = error_envelope raw
  /\ _parse_json_safe s = error_envelope raw
  /\ (endswith fence (strip s) = false \/ 6 <= List.length (strip s) ->
      startswith fence raw = true).
Proof.
  intros Hs Hn raw.
  change _parse_json_safe with parse_json_from_model_text.
  rewrite parse_json_from_model_text_unfold.
  assert (Hfs : fence_stripped s = raw).
  { unfold fence_stripped, drop_first_line, drop_closing_fence, raw.
    rewrite Hs, Hn. simpl. rewrite strip_idem_r. reflexivity. }
  destruct (loads_fence_no_newline (strip s) Hs) as [Hl Hk].
  fold raw in Hl, Hk. rewrite Hfs, Hl. auto.
Qed.

Lemma C10_witness_single_line :
  (startswith fence (strip (pyj "```json {'a': 1}```")) = true
   /\ find newline (strip (pyj "```json {'a': 1}```")) = (-1)%Z)
  /\ parse_json_from_model_text (pyj "```json {'a': 1}```")
     = error_envelope (pyj "```json {'a': 1}").
Proof.
  split; [split; reflexivity|].
  apply (C10_single_line_fence (pyj "```json {'a': 1}```")); reflexivity.
Defined.

(** C10 as stated fails: on the input of three backticks the premises hold,
    yet the fence is stripped and the text handed to the decoder is empty,
    so the raw text of the envelope carries no backticks. *)
Lemma C10_counterexample_bare_fence :
  startswith fence (strip (py "```")) = true
  /\ find newline (strip (py "```")) = (-1)%Z
  /\ fence_stripped (py "```") = []
  /\ parse_json_from_model_text (py "```") = error_envelope []
  /\ parse_json_from_model_text (py "```")
     <> error_envelope (strip (py "```")).
Proof. repeat split; try reflexivity. discriminate. Qed.

(* ================================================================== *)
(** * The schema coercer *)
(* ================================================================== *)

Lemma ap_Ok_inv {A B : Type} (f : outcome (A -> B)) (x : outcome A) (r : B) :
  f <*> x = Ok r -> exists g a, f = Ok g /\ x = Ok a /\ r = g a.
Proof.
  destruct f as [g|[]], x as [a|e]; simpl; try discriminate.
  intros E. injection E as <-. eauto.
Qed.

Lemma fmap_Ok_inv {A B : Type} (f : A -> B) (x : outcome A) (r : B) :
  fmap f x = Ok r -> exists a, x = Ok a /\ r = f a.
Proof. destruct x; simpl; [|discriminate]. intros E. injection E as <-. eauto. Qed.

Ltac ap_inv H :=
  lazymatch type of H with
  | Ok _ = Ok _ => injection H as H; subst
  | _ <*> _ = Ok _ =>
      let g := fresh "g" in
      let a := fresh "a" in
      let Hx := fresh "Hfield" in
      apply ap_Ok_inv in H as (g & a & H & Hx & ->); ap_inv H
  end.

Lemma str_eqb_eq (a b : str) : str_eqb a b = true -> a = b.
Proof.
  revert b. induction a as [|x a IH]; destruct b as [|y b]; simpl;
    try discriminate; [reflexivity|].
  intros H. apply andb_true_iff in H as [Hxy H]. apply N.eqb_eq in Hxy.
  f_equal; auto.
Qed.

Lemma fmt_02d_two_digits (n : Z) :
  (0 <= n < 100)%Z -> fmt_02d n = two_digits n.
Proof.
  intros Hn.
  assert (Hall : forallb
            (fun k => str_eqb (fmt_02d (Z.of_nat k)) (two_digits (Z.of_nat k)))
            (seq 0 100) = true) by (vm_compute; reflexivity).
  rewrite forallb_forall in Hall.
  specialize (Hall (Z.to_nat n)).
  rewrite Z2Nat.id in Hall by lia.
  apply str_eqb_eq, Hall, in_seq. lia.
Qed.

Lemma time_string_short (t : Z) :
  (t < 3600)%Z ->
  time_string t
  = two_digits (t mod 3600 / 60) ++ py ":" ++ two_digits (t mod 60).
Proof.
  intros Ht. unfold time_string.
  assert (Hh : (t / 3600 < 1)%Z) by (apply Z.div_lt_upper_bound; lia).
  destruct (0 <? t / 3600)%Z eqn:E; [apply Z.ltb_lt in E; lia|].
  assert (Hm : (0 <= t mod 3600 < 3600)%Z) by (apply Z.mod_pos_bound; lia).
  assert (Hq : (0 <= t mod 3600 / 60 < 60)%Z).
  { split; [apply Z.div_pos; lia|apply Z.div_lt_upper_bound; lia]. }
  assert (Hs : (0 <= t mod 60 < 60)%Z) by (apply Z.mod_pos_bound; lia).
  rewrite !fmt_02d_two_digits by lia. reflexivity.
Qed.

Lemma time_string_long (t : Z) :
  (3600 <= t)%Z ->
  time_string t
  = fmt_02d (t / 3600) ++ py ":" ++ two_digits (t mod 3600 / 60)
    ++ py ":" ++ two_digits (t mod 60).
Proof.
  intros Ht. unfold time_string.
  assert (Hh : (1 <= t / 3600)%Z) by (apply Z.div_le_lower_bound; lia).
  destruct (0 <? t / 3600)%Z eqn:E; [|apply Z.ltb_ge in E; lia].
  assert (Hm : (0 <= t mod 3600 < 3600)%Z) by (apply Z.mod_pos_bound; lia).
  assert (Hq : (0 <= t mod 3600 / 60 < 60)%Z).
  { split; [apply Z.div_pos; lia|apply Z.div_lt_upper_bound; lia]. }
  assert (Hs : (0 <= t mod 60 < 60)%Z) by (apply Z.mod_pos_bound; lia).
  rewrite (fmt_02d_two_digits (t mod 3600 / 60)) by lia.
  rewrite (fmt_02d_two_digits (t mod 60)) by lia. reflexivity.
Qed.

Example time_string_125 : time_string 125 = py "02:05".
Proof. reflexivity. Qed.

Example time_string_3725 : time_string 3725 = py "01:02:05".
Proof. reflexivity. Qed.

Example time_string_negative : time_string (-5) = py "59:55".
Proof. reflexivity. Qed.

Section Coercer.
Context {R : PyRuntime}.

Lemma convert_whole_seconds (v : pyval) (t : Z) :
  whole_seconds v = Some t ->
  TimelineSegment._convert_time_to_string v = Ok (PStr (time_string t)).
Proof.
  destruct v; simpl; try discriminate.
  - intros E. injection E as ->. reflexivity.
  - destruct (float_to_int f); simpl; [|discriminate].
    intros E. injection E as ->. reflexivity.
Qed.

(** What a successful validation of a segment says about each field. *)
Lemma TimelineSegment_validate_inv (d : dict) (r : TimelineSegment.t) :
  TimelineSegment.model_validate (PDict d) = Ok r ->
  exists r0, r = TimelineSegment._coerce_time_range r0
  /\ field "segment_id"
       (before TimelineSegment._coerce_segment_id (nullable validate_str))
       None d = Ok (TimelineSegment.segment_id r0)
  /\ field "time_range" (nullable TimeRange.model_validate) None d
     = Ok (TimelineSegment.time_range r0)
  /\ field "start"
       (before TimelineSegment._convert_time_to_string (nullable validate_str))
       None d = Ok (TimelineSegment.start r0)
  /\ field "end"
       (before TimelineSegment._convert_time_to_string (nullable validate_str))
       None d = Ok (TimelineSegment.end_ r0)
  /\ field "text_extraction_ocr"
       (before TimelineSegment._coerce_text_extraction_ocr
          (nullable TextExtractionOCR.model_validate)) None d
     = Ok (TimelineSegment.text_extraction_ocr r0).
Proof.
  unfold TimelineSegment.model_validate, validate_model. intros H.
  apply fmap_Ok_inv in H as [r0 [H ->]]. exists r0. split; [reflexivity|].
  unfold TimelineSegment.fields in H. ap_inv H. simpl. auto 10.
Qed.

Lemma coerce_time_range_fields (r0 : TimelineSegment.t) :
  let r := TimelineSegment._coerce_time_range r0 in
  TimelineSegment.segment_id r = TimelineSegment.segment_id r0
  /\ TimelineSegment.start r = TimelineSegment.start r0
  /\ TimelineSegment.end_ r = TimelineSegment.end_ r0
  /\ TimelineSegment.text_extraction_ocr r
     = TimelineSegment.text_extraction_ocr r0.
Proof.
  intros r. subst r. unfold TimelineSegment._coerce_time_range.
  destruct r0 as [sid [tr|] [st|] [en|] c va aa ocr em ir]; simpl;
    repeat split; reflexivity.
Qed.

Lemma time_field_inv (name : string) (d : dict) (v : pyval) (o : option str) :
  dict_get (py name) d = Some v ->
  field name
    (before TimelineSegment._convert_time_to_string (nullable validate_str))
    None d = Ok o ->
  match v with
  | PNone => o = None
  | _ => exists a, TimelineSegment._convert_time_to_string v = Ok (PStr a)
                   /\ o = Some a
  end.
Proof.
  intros Hget. unfold field. rewrite Hget. unfold before.
  destruct v; simpl.
  - intros E. injection E as <-. reflexivity.
  - intros E. injection E as <-. eauto.
  - intros E. injection E as <-. eauto.
  - destruct (float_to_int f) as [t|[]]; simpl; try discriminate.
    intros E. injection E as <-. eauto.
  - intros E. injection E as <-. eauto.
  - discriminate.
  - discriminate.
Qed.

(** C4 (as amended).  A numeric top-level [start] or [end] that has whole
    seconds [t] (an int, or a finite float truncated towards zero) is
    stored as the time string of [t]: [MM:SS] in two-digit fields when
    [t < 3600], and hours, [MM] and [SS] when [3600 <= t], the hours
    zero-padded to two digits (exactly two below 100 hours).  A string
    is stored unchanged, whatever it contains. *)
Theorem C4_seconds_become_time_string (d : dict) (r : TimelineSegment.t) :
  TimelineSegment.model_validate (PDict d) = Ok r ->
  (forall v t, whole_seconds v = Some t ->
     TimelineSegment._convert_time_to_string v = Ok (PStr (time_string t))
     /\ (dict_get (py "start") d = Some v ->
         TimelineSegment.start r = Some (time_string t))
     /\ (dict_get (py "end") d = Some v ->
         TimelineSegment.end_ r = Some (time_string t)))
  /\ (forall t, (t < 3600)%Z ->
        time_string t
        = two_digits (t mod 3600 / 60) ++ py ":" ++ two_digits (t mod 60))
  /\ (forall t, (3600 <= t)%Z ->
        time_string t
        = fmt_02d (t / 3600) ++ py ":" ++ two_digits (t mod 3600 / 60)
          ++ py ":" ++ two_digits (t mod 60)
        /\ ((t < 360000)%Z -> fmt_02d (t / 3600) = two_digits (t / 3600)))
  /\ (forall s,
        TimelineSegment._convert_time_to_string (PStr s) = Ok (PStr s)
        /\ _seconds_to_time_string (PStr s) = Ok s
        /\ (dict_get (py "start") d = Some (PStr s) ->
            TimelineSegment.start r = Some s)
        /\ (dict_get (py "end") d = Some (PStr s) ->
            TimelineSegment.end_ r = Some s)).
Proof.
  intros H.
  apply TimelineSegment_validate_inv in H
    as (r0 & -> & _ & _ & Hstart & Hend & _).
  destruct (coerce_time_range_fields r0) as (_ & -> & -> & _).
  repeat split.
  - apply convert_whole_seconds. assumption.
  - intros Hget. pose proof (time_field_inv _ _ _ _ Hget Hstart) as Hv.
    pose proof (convert_whole_seconds _ _ H) as Hc.
    destruct v; try discriminate; destruct Hv as (a & Ha & ->); congruence.
  - intros Hget. pose proof (time_field_inv _ _ _ _ Hget Hend) as Hv.
    pose proof (convert_whole_seconds _ _ H) as Hc.
    destruct v; try discriminate; destruct Hv as (a & Ha & ->); congruence.
  - apply time_string_short.
  - apply time_string_long. assumption.
  - intros Hlt. apply fmt_02d_two_digits. split.
    + apply Z.div_pos; lia.
    + apply Z.div_lt_upper_bound; lia.
  - intros Hget. pose proof (time_field_inv _ _ _ _ Hget Hstart) as Hv.
    simpl in Hv. destruct Hv as (a & Ha & ->). congruence.
  - intros Hget. pose proof (time_field_inv _ _ _ _ Hget Hend) as Hv.
    simpl in Hv. destruct Hv as (a & Ha & ->). congruence.
Qed.

Lemma coerce_time_range_kept (r0 : TimelineSegment.t) (t : TimeRange.t) :
  TimelineSegment.time_range r0 = Some t ->
  TimelineSegment.time_range (TimelineSegment._coerce_time_range r0) = Some t.
Proof.
  unfold TimelineSegment._coerce_time_range.
  destruct r0 as [sid [tr|] [st|] [en|] c va aa ocr em ir]; simpl;
    intros E; congruence.
Qed.

Lemma coerce_time_range_made (r0 : TimelineSegment.t) (a b : str) :
  TimelineSegment.time_range r0 = None ->
  TimelineSegment.start r0 = Some a ->
  TimelineSegment.end_ r0 = Some b ->
  TimelineSegment.time_range (TimelineSegment._coerce_time_range r0)
  = Some (TimeRange.mk a b).
Proof.
  unfold TimelineSegment._coerce_time_range.
  destruct r0 as [sid [tr|] [st|] [en|] c va aa ocr em ir]; simpl;
    intros E1 E2 E3; congruence.
Qed.

Lemma TimeRange_validate_inv (tr : pyval) (t : TimeRange.t) :
  TimeRange.model_validate tr = Ok t ->
  exists td, tr = PDict td
  /\ dict_get (py "start") td = Some (PStr (TimeRange.start t))
  /\ dict_get (py "end") td = Some (PStr (TimeRange.end_ t)).
Proof.
  unfold TimeRange.model_validate, validate_model.
  destruct tr as [| | | | |l|td]; try discriminate.
  intros H. exists td. split; [reflexivity|].
  unfold TimeRange.fields in H. ap_inv H. simpl.
  unfold required in *.
  destruct (dict_get (py "start") td) as [[]|]; try discriminate.
  destruct (dict_get (py "end") td) as [[]|]; try discriminate.
  simpl in *. split; congruence.
Qed.

(** C5.  In a validated segment: if the input has no nested [time_range]
    (absent or null) and carries top-level [start] and [end] values, the
    [time_range] is the pair of the two converted values; if the input
    supplies a nested [time_range], the [time_range] is that object as
    validated, with its own [start] and [end] strings. *)
Theorem C5_time_range_from_start_end (d : dict) (r : TimelineSegment.t) :
  TimelineSegment.model_validate (PDict d) = Ok r ->
  (forall v1 v2,
     dict_get (py "time_range") d = None
     \/ dict_get (py "time_range") d = Some PNone ->
     dict_get (py "start") d = Some v1 -> v1 <> PNone ->
     dict_get (py "end") d = Some v2 -> v2 <> PNone ->
     exists a b,
       TimelineSegment._convert_time_to_string v1 = Ok (PStr a)
       /\ TimelineSegment._convert_time_to_string v2 = Ok (PStr b)
       /\ TimelineSegment.time_range r = Some (TimeRange.mk a b)
       /\ TimelineSegment.start r = Some a
       /\ TimelineSegment.end_ r = Some b)
  /\ (forall tr,
        dict_get (py "time_range") d = Some tr -> tr <> PNone ->
        exists t td,
          TimeRange.model_validate tr = Ok t
          /\ TimelineSegment.time_range r = Some t
          /\ tr = PDict td
          /\ dict_get (py "start") td = Some (PStr (TimeRange.start t))
          /\ dict_get (py "end") td = Some (PStr (TimeRange.end_ t))).
Proof.
  intros H.
  apply TimelineSegment_validate_inv in H
    as (r0 & -> & _ & Htr & Hstart & Hend & _).
  split.
  - intros v1 v2 Hno H1 N1 H2 N2.
    pose proof (time_field_inv _ _ _ _ H1 Hstart) as Hv1.
    pose proof (time_field_inv _ _ _ _ H2 Hend) as Hv2.
    assert (Ha : exists a, TimelineSegment._convert_time_to_string v1
                           = Ok (PStr a)
                           /\ TimelineSegment.start r0 = Some a)
      by (destruct v1; try congruence; exact Hv1).
    assert (Hb : exists b, TimelineSegment._convert_time_to_string v2
                           = Ok (PStr b)
                           /\ TimelineSegment.end_ r0 = Some b)
      by (destruct v2; try congruence; exact Hv2).
    destruct Ha as (a & Ha & Sa), Hb as (b & Hb & Sb).
    assert (Hnone : TimelineSegment.time_range r0 = None).
    { unfold field in Htr. destruct Hno as [E|E]; rewrite E in Htr;
        simpl in Htr; congruence. }
    exists a, b.
    destruct (coerce_time_range_fields r0) as (_ & -> & -> & _).
    repeat split; try assumption.
    apply coerce_time_range_made; assumption.
  - intros tr Hget Hnn. unfold field in Htr. rewrite Hget in Htr.
    unfold nullable in Htr.
    assert (Hf : fmap Some (TimeRange.model_validate tr)
                 = Ok (TimelineSegment.time_range r0))
      by (destruct tr; try congruence; exact Htr).
    apply fmap_Ok_inv in Hf as (t & Ht & Hsome).
    destruct (TimeRange_validate_inv tr t Ht) as (td & -> & Hs & He).
    exists t, td. repeat split; try assumption.
    apply coerce_time_range_kept. assumption.
Qed.

Lemma traverse_strs (l : list str) :
  traverse validate_str (map PStr l) = Ok l.
Proof.
  induction l as [|x l IH]; simpl; [reflexivity|]. rewrite IH. reflexivity.
Qed.

Lemma ocr_validate_wrapped (texts : list str) :
  TextExtractionOCR.model_validate
    (PDict [(py "visible_text", PList (map PStr texts))])
  = Ok (TextExtractionOCR.mk texts None).
Proof.
  change (TextExtractionOCR.model_validate
            (PDict [(py "visible_text", PList (map PStr texts))]))
    with (Ok TextExtractionOCR.mk
          <*> traverse validate_str (map PStr texts) <*> Ok None).
  rewrite traverse_strs. reflexivity.
Qed.

(** C7.  A non-empty list given as [text_extraction_ocr] is wrapped by the
    field validator as [{"visible_text": <the list>}], and when its items
    are strings the validated segment holds the OCR object with that list
    and nothing else; an empty list gives no OCR object (null). *)
Theorem C7_ocr_list_is_wrapped (d : dict) (r : TimelineSegment.t) :
  TimelineSegment.model_validate (PDict d) = Ok r ->
  (forall l, l <> [] ->
     TimelineSegment._coerce_text_extraction_ocr (PList l)
     = Ok (PDict [(py "visible_text", PList l)]))
  /\ (forall texts, texts <> [] ->
        dict_get (py "text_extraction_ocr") d = Some (PList (map PStr texts)) ->
        TimelineSegment.text_extraction_ocr r
        = Some (TextExtractionOCR.mk texts None))
  /\ TimelineSegment._coerce_text_extraction_ocr (PList []) = Ok PNone
  /\ (dict_get (py "text_extraction_ocr") d = Some (PList []) ->
      TimelineSegment.text_extraction_ocr r = None).
Proof.
  intros H.
  apply TimelineSegment_validate_inv in H
    as (r0 & -> & _ & _ & _ & _ & Hocr).
  destruct (coerce_time_range_fields r0) as (_ & _ & _ & ->).
  repeat split.
  - intros l Hl. destruct l; [congruence|reflexivity].
  - intros texts Hne Hget. unfold field in Hocr. rewrite Hget in Hocr.
    assert (Hw : before TimelineSegment._coerce_text_extraction_ocr
                   (nullable TextExtractionOCR.model_validate)
                   (PList (map PStr texts))
                 = fmap Some (TextExtractionOCR.model_validate
                     (PDict [(py "visible_text", PList (map PStr texts))])))
      by (destruct texts; [congruence|reflexivity]).
    rewrite Hw, ocr_validate_wrapped in Hocr. simpl in Hocr. congruence.
  - intros Hget. unfold field in Hocr. rewrite Hget in Hocr.
    unfold before in Hocr. simpl in Hocr. congruence.
Qed.

Lemma map_py_str_strs (l : list str) : map py_str (map PStr l) = l.
Proof. induction l as [|x l IH]; simpl; [reflexivity|]. f_equal. exact IH. Qed.

(** C8.  In a validated virality record, a [target_audience] given as a
    list of strings is the items joined with [", "], and one given as a
    string is that string. *)
Theorem C8_target_audience_is_joined
    (d : dict) (r : GlobalViralityAnalysis.t) :
  GlobalViralityAnalysis.model_validate (PDict d) = Ok r ->
  (forall items,
     GlobalViralityAnalysis._coerce_target_audience (PList (map PStr items))
     = Ok (PStr (join (py ", ") items))
     /\ (dict_get (py "target_audience") d = Some (PList (map PStr items)) ->
         GlobalViralityAnalysis.target_audience r
         = Some (join (py ", ") items)))
  /\ (forall s,
        GlobalViralityAnalysis._coerce_target_audience (PStr s) = Ok (PStr s)
        /\ (dict_get (py "target_audience") d = Some (PStr s) ->
            GlobalViralityAnalysis.target_audience r = Some s)).
Proof.
  unfold GlobalViralityAnalysis.model_validate, validate_model. intros H.
  unfold GlobalViralityAnalysis.fields in H. ap_inv H. simpl.
  split; intros x; split; try reflexivity.
  - simpl. rewrite map_py_str_strs. reflexivity.
  - intros Hget. unfold field in Hfield0. rewrite Hget in Hfield0.
    unfold before in Hfield0. simpl in Hfield0.
    rewrite map_py_str_strs in Hfield0. simpl in Hfield0. congruence.
  - intros Hget. unfold field in Hfield0. rewrite Hget in Hfield0.
    unfold before in Hfield0. simpl in Hfield0. congruence.
Qed.

(** C9.  In a validated segment, a [segment_id] given as a number is that
    number's [str()]: the decimal digits of an int (["3"] for [3]), the
    [repr] of a float; a [segment_id] given as null stays null. *)
Theorem C9_segment_id_is_stringified (d : dict) (r : TimelineSegment.t) :
  TimelineSegment.model_validate (PDict d) = Ok r ->
  (forall n, dict_get (py "segment_id") d = Some (PInt n) ->
     TimelineSegment.segment_id r = Some (int_str n))
  /\ (forall f, dict_get (py "segment_id") d = Some (PFloat f) ->
        TimelineSegment.segment_id r = Some (float_repr f))
  /\ (dict_get (py "segment_id") d = Some PNone ->
      TimelineSegment.segment_id r = None)
  /\ int_str 3 = py "3".
Proof.
  intros H.
  apply TimelineSegment_validate_inv in H
    as (r0 & -> & Hid & _).
  destruct (coerce_time_range_fields r0) as (-> & _).
  unfold field, before in Hid.
  repeat split; try intros x Hget; try intros Hget; rewrite Hget in Hid;
    simpl in Hid; congruence.
Qed.

(** C1 (as amended).  A value that is not a mapping fails validation with
    a [ValidationError].  The error envelope of the extractor is a mapping
    none of whose keys names a field, and unknown keys are ignored: it
    validates, giving the report in which every field has its default. *)
Theorem C1_only_non_mappings_are_rejected (v : pyval) (raw : str) :
  (is_dict v = false -> AnalysisResult.model_validate v = Raise ValidationError)
  /\ AnalysisResult.model_validate (error_envelope raw)
     = Ok AnalysisResult.empty.
Proof.
  split; [|reflexivity].
  destruct v; simpl; intros E; try reflexivity. discriminate.
Qed.

End Coercer.

(* ================================================================== *)
(** * Validating a dumped report again *)
(* ================================================================== *)

(** Looks the fields of a dumped model up by name, leaving the dumped
    values as they are. *)
Ltac lookup_fields :=
  unfold field, required;
  repeat match goal with
  | |- context [dict_get (py ?k) ?d] =>
      let r := eval lazy [dict_get str_eqb py N_of_ascii N_of_digits
                          N.add N.mul N.eqb Pos.eqb Pos.add Pos.mul Pos.succ
                          Pos.add_carry andb]
               in (dict_get (py k) d) in
      change (dict_get (py k) d) with r
  end;
  cbv beta iota.

Lemma nullable_dump_opt {A : Type} (inner : pyval -> outcome A)
    (f : A -> pyval) (o : option A) :
  (forall a, f a <> PNone) -> (forall a, inner (f a) = Ok a) ->
  nullable inner (dump_opt f o) = Ok o.
Proof.
  intros Hf Hi. destruct o as [a|]; simpl; [|reflexivity].
  unfold nullable. specialize (Hf a).
  destruct (f a) eqn:E; try congruence; rewrite <- E, Hi; reflexivity.
Qed.

Lemma traverse_map {A : Type} (inner : pyval -> outcome A) (f : A -> pyval)
    (l : list A) :
  Forall (fun a => inner (f a) = Ok a) l -> traverse inner (map f l) = Ok l.
Proof.
  induction 1 as [|a l Ha Hl IH]; simpl; [reflexivity|].
  rewrite Ha, IH. reflexivity.
Qed.

Lemma traverse_map_all {A : Type} (inner : pyval -> outcome A)
    (f : A -> pyval) (l : list A) :
  (forall a, inner (f a) = Ok a) -> traverse inner (map f l) = Ok l.
Proof. intros H. apply traverse_map, Forall_forall. auto. Qed.

Lemma traverse_Ok_inv {A : Type} (inner : pyval -> outcome A)
    (l : list pyval) (out : list A) :
  traverse inner l = Ok out -> Forall2 (fun v a => inner v = Ok a) l out.
Proof.
  revert out. induction l as [|v l IH]; simpl; intros out H.
  - injection H as <-. constructor.
  - apply ap_Ok_inv in H as (g & rest & Hg & Hrest & ->).
    apply fmap_Ok_inv in Hg as (a & Ha & ->). constructor; auto.
Qed.

Lemma nullable_str_dump (o : option str) :
  nullable validate_str (dump_opt PStr o) = Ok o.
Proof. destruct o; reflexivity. Qed.

Lemma list_str_dump (l : list str) :
  validate_list validate_str (dump_strs l) = Ok l.
Proof. apply traverse_strs. Qed.

Section Roundtrip.
Context {R : PyRuntime}.

Lemma nullable_float_dump (o : option spec_float) :
  nullable validate_float (dump_opt PFloat o) = Ok o.
Proof. destruct o; reflexivity. Qed.

Lemma nullable_int_dump (o : option Z) :
  nullable validate_int (dump_opt PInt o) = Ok o.
Proof. destruct o; reflexivity. Qed.

Ltac roundtrip :=
  lookup_fields;
  rewrite ?nullable_str_dump, ?list_str_dump, ?nullable_float_dump,
    ?nullable_int_dump;
  try reflexivity.

Lemma TechnicalSpecs_roundtrip (r : TechnicalSpecs.t) :
  TechnicalSpecs.model_validate (TechnicalSpecs.model_dump r) = Ok r.
Proof.
  destruct r. unfold TechnicalSpecs.model_validate, validate_model,
    TechnicalSpecs.model_dump, TechnicalSpecs.fields. simpl.
  roundtrip.
Qed.

Lemma TechnicalSpecs_nullable_dump (o : option TechnicalSpecs.t) :
  nullable TechnicalSpecs.model_validate (dump_opt TechnicalSpecs.model_dump o) = Ok o.
Proof.
  apply nullable_dump_opt; [discriminate|apply TechnicalSpecs_roundtrip].
Qed.

Lemma FileInfo_roundtrip (r : FileInfo.t) :
  FileInfo.model_validate (FileInfo.model_dump r) = Ok r.
Proof.
  destruct r. unfold FileInfo.model_validate, validate_model,
    FileInfo.model_dump, FileInfo.fields. simpl.
  lookup_fields. rewrite TechnicalSpecs_nullable_dump.
  roundtrip.
Qed.

Lemma FileInfo_nullable_dump (o : option FileInfo.t) :
  nullable FileInfo.model_validate (dump_opt FileInfo.model_dump o) = Ok o.
Proof.
  apply nullable_dump_opt; [discriminate|apply FileInfo_roundtrip].
Qed.

Lemma GlobalAnalysis_roundtrip (r : GlobalAnalysis.t) :
  GlobalAnalysis.model_validate (GlobalAnalysis.model_dump r) = Ok r.
Proof.
  destruct r. unfold GlobalAnalysis.model_validate, validate_model,
    GlobalAnalysis.model_dump, GlobalAnalysis.fields. simpl.
  roundtrip.
Qed.

Lemma GlobalAnalysis_nullable_dump (o : option GlobalAnalysis.t) :
  nullable GlobalAnalysis.model_validate (dump_opt GlobalAnalysis.model_dump o) = Ok o.
Proof.
  apply nullable_dump_opt; [discriminate|apply GlobalAnalysis_roundtrip].
Qed.

Lemma TimeRange_roundtrip (r : TimeRange.t) :
  TimeRange.model_validate (TimeRange.model_dump r) = Ok r.
Proof.
  destruct r. unfold TimeRange.model_validate, validate_model,
    TimeRange.model_dump, TimeRange.fields. simpl.
  roundtrip.
Qed.

Lemma TimeRange_nullable_dump (o : option TimeRange.t) :
  nullable TimeRange.model_validate (dump_opt TimeRange.model_dump o) = Ok o.
Proof.
  apply nullable_dump_opt; [discriminate|apply TimeRange_roundtrip].
Qed.

Lemma Classification_roundtrip (r : Classification.t) :
  Classification.model_validate (Classification.model_dump r) = Ok r.
Proof.
  destruct r. unfold Classification.model_validate, validate_model,
    Classification.model_dump, Classification.fields. simpl.
  roundtrip.
Qed.

Lemma Classification_nullable_dump (o : option Classification.t) :
  nullable Classification.model_validate (dump_opt Classification.model_dump o) = Ok o.
Proof.
  apply nullable_dump_opt; [discriminate|apply Classification_roundtrip].
Qed.

Lemma VisualSubject_roundtrip (r : VisualSubject.t) :
  VisualSubject.model_validate (VisualSubject.model_dump r) = Ok r.
Proof.
  destruct r. unfold VisualSubject.model_validate, validate_model,
    VisualSubject.model_dump, VisualSubject.fields. simpl.
  roundtrip.
Qed.

Lemma VisualSubject_list_dump (l : list VisualSubject.t) :
  validate_list VisualSubject.model_validate (PList (map VisualSubject.model_dump l)) = Ok l.
Proof. apply traverse_map_all, VisualSubject_roundtrip. Qed.

Lemma VisualAnalysis_roundtrip (r : VisualAnalysis.t) :
  VisualAnalysis.model_validate (VisualAnalysis.model_dump r) = Ok r.
Proof.
  destruct r. unfold VisualAnalysis.model_validate, validate_model,
    VisualAnalysis.model_dump, VisualAnalysis.fields. simpl.
  lookup_fields. rewrite VisualSubject_list_dump.
  roundtrip.
Qed.

Lemma VisualAnalysis_nullable_dump (o : option VisualAnalysis.t) :
  nullable VisualAnalysis.model_validate (dump_opt VisualAnalysis.model_dump o) = Ok o.
Proof.
  apply nullable_dump_opt; [discriminate|apply VisualAnalysis_roundtrip].
Qed.

Lemma AudioAnalysis_roundtrip (r : AudioAnalysis.t) :
  AudioAnalysis.model_validate (AudioAnalysis.model_dump r) = Ok r.
Proof.
  destruct r. unfold AudioAnalysis.model_validate, validate_model,
    AudioAnalysis.model_dump, AudioAnalysis.fields. simpl.
  roundtrip.
Qed.

Lemma AudioAnalysis_nullable_dump (o : option AudioAnalysis.t) :
  nullable AudioAnalysis.model_validate (dump_opt AudioAnalysis.model_dump o) = Ok o.
Proof.
  apply nullable_dump_opt; [discriminate|apply AudioAnalysis_roundtrip].
Qed.

Lemma TextExtractionOCR_roundtrip (r : TextExtractionOCR.t) :
  TextExtractionOCR.model_validate (TextExtractionOCR.model_dump r) = Ok r.
Proof.
  destruct r. unfold TextExtractionOCR.model_validate, validate_model,
    TextExtractionOCR.model_dump, TextExtractionOCR.fields. simpl.
  roundtrip.
Qed.

Lemma EngagementMechanics_roundtrip (r : EngagementMechanics.t) :
  EngagementMechanics.model_validate (EngagementMechanics.model_dump r) = Ok r.
Proof.
  destruct r. unfold EngagementMechanics.model_validate, validate_model,
    EngagementMechanics.model_dump, EngagementMechanics.fields. simpl.
  roundtrip.
Qed.

Lemma EngagementMechanics_nullable_dump (o : option EngagementMechanics.t) :
  nullable EngagementMechanics.model_validate (dump_opt EngagementMechanics.model_dump o) = Ok o.
Proof.
  apply nullable_dump_opt; [discriminate|apply EngagementMechanics_roundtrip].
Qed.

Lemma IRReconstruction_roundtrip (r : IRReconstruction.t) :
  IRReconstruction.model_validate (IRReconstruction.model_dump r) = Ok r.
Proof.
  destruct r. unfold IRReconstruction.model_validate, validate_model,
    IRReconstruction.model_dump, IRReconstruction.fields. simpl.
  roundtrip.
Qed.

Lemma IRReconstruction_nullable_dump (o : option IRReconstruction.t) :
  nullable IRReconstruction.model_validate (dump_opt IRReconstruction.model_dump o) = Ok o.
Proof.
  apply nullable_dump_opt; [discriminate|apply IRReconstruction_roundtrip].
Qed.

Lemma target_audience_dump (o : option str) :
  before GlobalViralityAnalysis._coerce_target_audience
    (nullable validate_str) (dump_opt PStr o) = Ok o.
Proof. destruct o; reflexivity. Qed.

Lemma GlobalViralityAnalysis_roundtrip (r : GlobalViralityAnalysis.t) :
  GlobalViralityAnalysis.model_validate (GlobalViralityAnalysis.model_dump r) = Ok r.
Proof.
  destruct r. unfold GlobalViralityAnalysis.model_validate, validate_model,
    GlobalViralityAnalysis.model_dump, GlobalViralityAnalysis.fields. simpl.
  lookup_fields. rewrite target_audience_dump.
  roundtrip.
Qed.

Lemma GlobalViralityAnalysis_nullable_dump (o : option GlobalViralityAnalysis.t) :
  nullable GlobalViralityAnalysis.model_validate (dump_opt GlobalViralityAnalysis.model_dump o) = Ok o.
Proof.
  apply nullable_dump_opt; [discriminate|apply GlobalViralityAnalysis_roundtrip].
Qed.

Lemma ExtractedAction_roundtrip (r : ExtractedAction.t) :
  ExtractedAction.model_validate (ExtractedAction.model_dump r) = Ok r.
Proof.
  destruct r. unfold ExtractedAction.model_validate, validate_model,
    ExtractedAction.model_dump, ExtractedAction.fields. simpl.
  roundtrip.
Qed.

Lemma ExtractedAction_list_dump (l : list ExtractedAction.t) :
  validate_list ExtractedAction.model_validate (PList (map ExtractedAction.model_dump l)) = Ok l.
Proof. apply traverse_map_all, ExtractedAction_roundtrip. Qed.

Lemma ExtractedEntities_roundtrip (r : ExtractedEntities.t) :
  ExtractedEntities.model_validate (ExtractedEntities.model_dump r) = Ok r.
Proof.
  destruct r. unfold ExtractedEntities.model_validate, validate_model,
    ExtractedEntities.model_dump, ExtractedEntities.fields. simpl.
  lookup_fields. rewrite ExtractedAction_list_dump.
  roundtrip.
Qed.

Lemma ExtractedEntities_nullable_dump (o : option ExtractedEntities.t) :
  nullable ExtractedEntities.model_validate (dump_opt ExtractedEntities.model_dump o) = Ok o.
Proof.
  apply nullable_dump_opt; [discriminate|apply ExtractedEntities_roundtrip].
Qed.

Lemma segment_id_dump (o : option str) :
  before TimelineSegment._coerce_segment_id (nullable validate_str)
    (dump_opt PStr o) = Ok o.
Proof. destruct o; reflexivity. Qed.

Lemma time_field_dump (o : option str) :
  before TimelineSegment._convert_time_to_string (nullable validate_str)
    (dump_opt PStr o) = Ok o.
Proof. destruct o; reflexivity. Qed.

Lemma ocr_field_dump (o : option TextExtractionOCR.t) :
  before TimelineSegment._coerce_text_extraction_ocr
    (nullable TextExtractionOCR.model_validate)
    (dump_opt TextExtractionOCR.model_dump o) = Ok o.
Proof.
  destruct o as [x|]; [|reflexivity].
  change (before TimelineSegment._coerce_text_extraction_ocr
            (nullable TextExtractionOCR.model_validate)
            (dump_opt TextExtractionOCR.model_dump (Some x)))
    with (fmap Some (TextExtractionOCR.model_validate
                       (TextExtractionOCR.model_dump x))).
  rewrite TextExtractionOCR_roundtrip. reflexivity.
Qed.

(** The fields of a dumped segment validate to the segment's fields. *)
Lemma TimelineSegment_fields_dump (r : TimelineSegment.t) :
  TimelineSegment.model_validate (TimelineSegment.model_dump r)
  = Ok (TimelineSegment._coerce_time_range r).
Proof.
  destruct r. unfold TimelineSegment.model_validate, validate_model,
    TimelineSegment.model_dump, TimelineSegment.fields.
  cbn [TimelineSegment.segment_id TimelineSegment.time_range
       TimelineSegment.start TimelineSegment.end_
       TimelineSegment.classification TimelineSegment.visual_analysis
       TimelineSegment.audio_analysis TimelineSegment.text_extraction_ocr
       TimelineSegment.engagement_mechanics
       TimelineSegment.ir_reconstruction].
  lookup_fields.
  rewrite segment_id_dump, !time_field_dump, ocr_field_dump,
    TimeRange_nullable_dump, Classification_nullable_dump,
    VisualAnalysis_nullable_dump, AudioAnalysis_nullable_dump,
    EngagementMechanics_nullable_dump, IRReconstruction_nullable_dump.
  reflexivity.
Qed.

(** The model validator changes nothing the second time. *)
Lemma coerce_time_range_idem (r : TimelineSegment.t) :
  TimelineSegment._coerce_time_range (TimelineSegment._coerce_time_range r)
  = TimelineSegment._coerce_time_range r.
Proof.
  unfold TimelineSegment._coerce_time_range.
  destruct r as [sid [tr|] [st|] [en|] c va aa ocr em ir]; reflexivity.
Qed.

Lemma TimelineSegment_validated_stable (v : pyval) (r : TimelineSegment.t) :
  TimelineSegment.model_validate v = Ok r ->
  TimelineSegment._coerce_time_range r = r.
Proof.
  unfold TimelineSegment.model_validate, validate_model.
  destruct v; try discriminate. intros H.
  apply fmap_Ok_inv in H as (r0 & _ & ->). apply coerce_time_range_idem.
Qed.

Lemma TimelineSegment_roundtrip (v : pyval) (r : TimelineSegment.t) :
  TimelineSegment.model_validate v = Ok r ->
  TimelineSegment.model_validate (TimelineSegment.model_dump r) = Ok r.
Proof.
  intros H. rewrite TimelineSegment_fields_dump.
  rewrite (TimelineSegment_validated_stable v r H). reflexivity.
Qed.

Lemma TimelineSegment_list_roundtrip (l : list pyval)
    (segs : list TimelineSegment.t) :
  traverse TimelineSegment.model_validate l = Ok segs ->
  traverse TimelineSegment.model_validate
    (map TimelineSegment.model_dump segs) = Ok segs.
Proof.
  intros H. apply traverse_Ok_inv in H. apply traverse_map.
  induction H as [|v r l segs Hv Hl IH]; constructor; [|exact IH].
  eapply TimelineSegment_roundtrip. exact Hv.
Qed.

(** C6.  Dumping a validated report to a JSON-like mapping ([model_dump],
    the report's [to_json]) and validating the mapping again succeeds and
    gives the same report.  This holds for every input on which the first
    validation succeeds, canonical or not. *)
Theorem C6_revalidation_is_identity (x : pyval) (r : AnalysisResult.t) :
  AnalysisResult.model_validate x = Ok r ->
  AnalysisResult.model_validate (AnalysisResult.model_dump r) = Ok r.
Proof.
  unfold AnalysisResult.model_validate at 1. unfold validate_model.
  destruct x as [| | | | | |d]; try discriminate. intros H.
  assert (Hsegs : traverse TimelineSegment.model_validate
                    (map TimelineSegment.model_dump
                       (AnalysisResult.timeline_segments r))
                  = Ok (AnalysisResult.timeline_segments r)).
  { unfold AnalysisResult.fields in H. ap_inv H. simpl.
    unfold field in Hfield0.
    destruct (dict_get (py "timeline_segments") d) as [v|].
    - destruct v; try discriminate.
      eapply TimelineSegment_list_roundtrip. exact Hfield0.
    - injection Hfield0 as <-. reflexivity. }
  clear H. destruct r as [fi ga gv segs ee].
  unfold AnalysisResult.model_validate, validate_model,
    AnalysisResult.model_dump, AnalysisResult.fields.
  cbn [AnalysisResult.file_info AnalysisResult.global_analysis
       AnalysisResult.global_virality AnalysisResult.timeline_segments
       AnalysisResult.extracted_entities] in *.
  lookup_fields.
  change (validate_list TimelineSegment.model_validate
            (PList (map TimelineSegment.model_dump segs)))
    with (traverse TimelineSegment.model_validate
            (map TimelineSegment.model_dump segs)).
  rewrite Hsegs, FileInfo_nullable_dump, GlobalAnalysis_nullable_dump,
    GlobalViralityAnalysis_nullable_dump, ExtractedEntities_nullable_dump.
  reflexivity.
Qed.

(** A dumped report whose segments passed the model validator is in
    canonical shape: it validates, to the report itself. *)
Lemma canonical_report_validates (r : AnalysisResult.t) :
  Forall (fun seg => TimelineSegment._coerce_time_range seg = seg)
    (AnalysisResult.timeline_segments r) ->
  AnalysisResult.model_validate (AnalysisResult.model_dump r) = Ok r.
Proof.
  intros Hst. destruct r as [fi ga gv segs ee].
  unfold AnalysisResult.model_validate, validate_model,
    AnalysisResult.model_dump, AnalysisResult.fields.
  cbn [AnalysisResult.file_info AnalysisResult.global_analysis
       AnalysisResult.global_virality AnalysisResult.timeline_segments
       AnalysisResult.extracted_entities] in *.
  lookup_fields.
  change (validate_list TimelineSegment.model_validate
            (PList (map TimelineSegment.model_dump segs)))
    with (traverse TimelineSegment.model_validate
            (map TimelineSegment.model_dump segs)).
  rewrite (traverse_map TimelineSegment.model_validate
             TimelineSegment.model_dump segs).
  - rewrite FileInfo_nullable_dump, GlobalAnalysis_nullable_dump,
      GlobalViralityAnalysis_nullable_dump, ExtractedEntities_nullable_dump.
    reflexivity.
  - eapply Forall_impl; [|exact Hst]. intros seg Hseg.
    rewrite TimelineSegment_fields_dump, Hseg. reflexivity.
Qed.

End Roundtrip.

(* ================================================================== *)
(** * The claims on concrete inputs *)
(* ================================================================== *)

(** C1 as stated fails: the text ["not json at all"] is extracted as the
    error envelope, and the envelope validates to the empty report instead
    of failing with a [ValidationError]. *)
Lemma C1_counterexample_envelope_validates :
  parse_json_from_model_text (py "not json at all")
  = error_envelope (py "not json at all")
  /\ AnalysisResult.model_validate
       (parse_json_from_model_text (py "not json at all"))
     = Ok AnalysisResult.empty
  /\ AnalysisResult.model_validate
       (parse_json_from_model_text (py "not json at all"))
     <> Raise ValidationError.
Proof. repeat split; try reflexivity. discriminate. Qed.

Lemma C1_witness_list_rejected :
  is_dict (PList []) = false
  /\ AnalysisResult.model_validate (PList []) = Raise ValidationError
  /\ AnalysisResult.model_validate (error_envelope (py "not json at all"))
     = Ok AnalysisResult.empty.
Proof.
  split; [reflexivity|].
  destruct (C1_only_non_mappings_are_rejected (PList [])
              (py "not json at all")) as [H1 H2].
  split; [apply H1; reflexivity|exact H2].
Defined.

(** C4 as stated fails for floats without whole seconds: [Infinity] (also
    written [1e999]) as [start] makes validation raise [OverflowError], and
    [NaN] makes it fail with a [ValidationError]; no time string is made. *)
Lemma C4_counterexample_infinite_seconds :
  Json.loads (pyj "{'start': 1e999}")
  = Some (PDict [(py "start", PFloat (S754_infinity false))])
  /\ _seconds_to_time_string (PFloat (S754_infinity false))
     = Raise OverflowError
  /\ TimelineSegment.model_validate
       (PDict [(py "start", PFloat (S754_infinity false))])
     = Raise OverflowError
  /\ _seconds_to_time_string (PFloat S754_nan) = Raise ValueError
  /\ TimelineSegment.model_validate (PDict [(py "start", PFloat S754_nan)])
     = Raise ValidationError.
Proof. repeat split; reflexivity. Qed.

Lemma C4_witness_125_and_3725 :
  let v1 := PInt 125 in
  let v2 := PFloat (Json.float_of_decimal false 37259 (-1)) in
  let d := [(py "start", v1); (py "end", v2)] in
  whole_seconds v1 = Some 125%Z
  /\ whole_seconds v2 = Some 3725%Z
  /\ exists r,
       TimelineSegment.model_validate (PDict d) = Ok r
       /\ TimelineSegment.start r = Some (py "02:05")
       /\ TimelineSegment.end_ r = Some (py "01:02:05").
Proof.
  intros v1 v2 d.
  assert (H1 : whole_seconds v1 = Some 125%Z) by reflexivity.
  assert (H2 : whole_seconds v2 = Some 3725%Z) by reflexivity.
  split; [exact H1|]. split; [exact H2|].
  destruct (TimelineSegment.model_validate (PDict d)) as [r|e] eqn:E;
    [|vm_compute in E; discriminate].
  exists r. split; [reflexivity|].
  destruct (C4_seconds_become_time_string d r E) as [Hnum _].
  split.
  - apply (proj1 (proj2 (Hnum v1 125%Z H1))). reflexivity.
  - apply (proj2 (proj2 (Hnum v2 3725%Z H2))). reflexivity.
Defined.

Lemma C5_witness_125_140 :
  let d := [(py "start", PInt 125); (py "end", PInt 140)] in
  dict_get (py "time_range") d = None
  /\ exists r,
       TimelineSegment.model_validate (PDict d) = Ok r
       /\ TimelineSegment.time_range r
          = Some (TimeRange.mk (py "02:05") (py "02:20")).
Proof.
  intros d. split; [reflexivity|].
  destruct (TimelineSegment.model_validate (PDict d)) as [r|e] eqn:E;
    [|vm_compute in E; discriminate].
  exists r. split; [reflexivity|].
  destruct (C5_time_range_from_start_end d r E) as [Hsyn _].
  assert (Hno : dict_get (py "time_range") d = None
                \/ dict_get (py "time_range") d = Some PNone)
    by (left; reflexivity).
  assert (N1 : PInt 125 <> PNone) by discriminate.
  assert (N2 : PInt 140 <> PNone) by discriminate.
  destruct (Hsyn (PInt 125) (PInt 140) Hno eq_refl N1 eq_refl N2)
    as (a & b & Ha & Hb & Htr & _).
  injection Ha as <-. injection Hb as <-. exact Htr.
Defined.

Lemma C7_witness_login_password :
  let texts := [py "LOGIN"; py "PASSWORD"] in
  let d := [(py "text_extraction_ocr", PList (map PStr texts))] in
  exists r,
    TimelineSegment.model_validate (PDict d) = Ok r
    /\ TimelineSegment.text_extraction_ocr r
       = Some (TextExtractionOCR.mk texts None).
Proof.
  intros texts d. eexists. split; [reflexivity|].
  match goal with
  | |- TimelineSegment.text_extraction_ocr ?r = _ =>
      destruct (C7_ocr_list_is_wrapped d r eq_refl) as (_ & Hwrap & _)
  end.
  apply Hwrap; [discriminate|reflexivity].
Defined.

Lemma C8_witness_gen_z :
  let items := [py "Gen Z"; py "Tech Enthusiasts"] in
  let d := [(py "target_audience", PList (map PStr items))] in
  exists r,
    GlobalViralityAnalysis.model_validate (PDict d) = Ok r
    /\ GlobalViralityAnalysis.target_audience r
       = Some (py "Gen Z, Tech Enthusiasts").
Proof.
  intros items d. eexists. split; [reflexivity|].
  match goal with
  | |- GlobalViralityAnalysis.target_audience ?r = _ =>
      destruct (C8_target_audience_is_joined d r eq_refl) as (Hjoin & _)
  end.
  apply (proj2 (Hjoin items)). reflexivity.
Defined.

Lemma C9_witness_three :
  let d := [(py "segment_id", PInt 3)] in
  exists r,
    TimelineSegment.model_validate (PDict d) = Ok r
    /\ TimelineSegment.segment_id r = Some (py "3").
Proof.
  intros d. eexists. split; [reflexivity|].
  match goal with
  | |- TimelineSegment.segment_id ?r = _ =>
      destruct (C9_segment_id_is_stringified d r eq_refl) as (Hint & _)
  end.
  apply (Hint 3%Z). reflexivity.
Defined.

(** The end-to-end scenario of the specification. *)
Example end_to_end_fenced_segment :
  exists seg,
    AnalysisResult.model_validate
      (parse_json_from_model_text
         (py "```json" ++ [newline]
          ++ pyj "{'timeline_segments':[{'segment_id':1,'start':65,'end':70}]}"
          ++ [newline] ++ py "```"))
    = Ok (AnalysisResult.mk None None None [seg] None)
    /\ TimelineSegment.segment_id seg = Some (py "1")
    /\ TimelineSegment.time_range seg
       = Some (TimeRange.mk (py "01:05") (py "01:10")).
Proof. eexists. repeat split. Qed.

Example loads_surrogate_pair :
  Json.loads (pyj "'\ud83d\ude00'") = Some (PStr [128512%N]).
Proof. reflexivity. Qed.

Example loads_rejects_trailing_comma : Json.loads (pyj "[1,]") = None.
Proof. reflexivity. Qed.

Example loads_last_duplicate_wins :
  Json.loads (pyj "{'a': 1, 'b': 2, 'a': 3}")
  = Some (PDict [(py "a", PInt 3); (py "b", PInt 2)]).
Proof. reflexivity. Qed.

Example loads_tenth :
  Json.loads (py "0.1")
  = Some (PFloat (S754_finite false 7205759403792794 (-56))).
Proof. reflexivity. Qed.

Lemma C6_witness_fenced_segment :
  let x := parse_json_from_model_text
             (pyj "{'timeline_segments':[{'segment_id':1,'start':65,'end':70}]}") in
  exists r,
    AnalysisResult.model_validate x = Ok r
    /\ AnalysisResult.model_validate (AnalysisResult.model_dump r) = Ok r.
Proof.
  intros x.
  destruct (AnalysisResult.model_validate x) as [r|e] eqn:E;
    [|vm_compute in E; discriminate].
  exists r. split; [reflexivity|].
  exact (C6_revalidation_is_identity x r E).
Defined.

Example float_repr_examples :
  float_repr (S754_finite false 3 0) = py "3.0"
  /\ float_repr (S754_finite true 5 (-1)) = py "-2.5"
  /\ float_repr (S754_finite false 1 (-4)) = py "0.0625".
Proof. repeat split. Qed.

(* ================================================================== *)
(** * More about the extractor *)
(* ================================================================== *)

(** White space around the reply never changes what is extracted. *)
Theorem extract_ignores_surrounding_space (w1 w2 s : str) :
  forallb isspace w1 = true -> forallb isspace w2 = true ->
  parse_json_from_model_text (w1 ++ s ++ w2) = parse_json_from_model_text s
  /\ _parse_json_safe (w1 ++ s ++ w2) = _parse_json_safe s.
Proof.
  intros H1 H2. change _parse_json_safe with parse_json_from_model_text.
  rewrite !parse_json_from_model_text_unfold.
  rewrite fence_stripped_frame by assumption. auto.
Qed.

Lemma extract_ignores_surrounding_space_witness :
  parse_json_from_model_text ([newline; 32%N] ++ pyj "{'a': 1}" ++ [9%N])
  = parse_json_from_model_text (pyj "{'a': 1}").
Proof.
  apply (extract_ignores_surrounding_space [newline; 32%N] [9%N]);
    reflexivity.
Defined.



(** After a fence line (tag without line break) whose rest is not blank,
    the text handed to the decoder is the rest, trimmed on the right and
    without a closing fence: the tag plays no role. *)
Lemma fence_stripped_fence_line (tag rest : str) :
  find newline tag = (-1)%Z -> rstrip rest <> [] ->
  fence_stripped (fence ++ tag ++ newline :: rest)
  = drop_closing_fence (rstrip rest).
Proof.
  intros Ht Hr.
  assert (Hs : strip (fence ++ tag ++ newline :: rest)
               = fence ++ tag ++ newline :: rstrip rest).
  { unfold strip. simpl lstrip.
    change (backtick :: backtick :: backtick :: tag ++ newline :: rest)
      with (fence ++ tag ++ [newline] ++ rest).
    rewrite !app_assoc. rewrite rstrip_app_keep by assumption.
    rewrite <- !app_assoc. reflexivity. }
  rewrite <- fence_stripped_strip, Hs.
  apply fence_stripped_fenced; [assumption|].
  rewrite app_assoc.
  change (newline :: rstrip rest) with ([newline] ++ rstrip rest).
  rewrite app_assoc.
  rewrite rstrip_app_keep by (rewrite rstrip_idem; assumption).
  rewrite rstrip_idem. reflexivity.
Qed.

(** The language tag on the fence line never matters. *)
Theorem fence_tag_is_ignored (tag1 tag2 rest : str) :
  find newline tag1 = (-1)%Z -> find newline tag2 = (-1)%Z ->
  rstrip rest <> [] ->
  parse_json_from_model_text (fence ++ tag1 ++ newline :: rest)
  = parse_json_from_model_text (fence ++ tag2 ++ newline :: rest).
Proof.
  intros H1 H2 Hr. rewrite !parse_json_from_model_text_unfold.
  rewrite !fence_stripped_fence_line by assumption. reflexivity.
Qed.

Lemma fence_tag_is_ignored_witness :
  let rest := pyj "[1, 2]" ++ [newline] ++ py "```" in
  parse_json_from_model_text (fence ++ py "json" ++ newline :: rest)
  = parse_json_from_model_text (fence ++ py "" ++ newline :: rest).
Proof.
  intros rest.
  apply (fence_tag_is_ignored (py "json") (py "") rest);
    [reflexivity|reflexivity|discriminate].
Defined.

(* ================================================================== *)
(** * More about the time strings *)
(* ================================================================== *)

(** A value below one hour, negative ones included, is printed as its
    residue modulo 3600: [-5] gives ["59:55"], like [3595]. *)
Theorem time_string_wraps_below_one_hour (t : Z) :
  (t < 3600)%Z -> time_string t = time_string (t mod 3600).
Proof.
  intros Ht.
  assert (Hm : (0 <= t mod 3600 < 3600)%Z) by (apply Z.mod_pos_bound; lia).
  rewrite (time_string_short t Ht).
  rewrite (time_string_short (t mod 3600)) by lia.
  rewrite Z.mod_mod by lia.
  rewrite (Z.mod_mod_divide t 3600 60) by (exists 60%Z; reflexivity).
  reflexivity.
Qed.

Lemma time_string_wraps_witness :
  time_string (-5) = time_string 3595 /\ time_string (-5) = py "59:55".
Proof.
  split; [|reflexivity].
  apply (time_string_wraps_below_one_hour (-5)). lia.
Defined.

Lemma uint_digits_inj (u u' : Decimal.uint) :
  uint_digits u = uint_digits u' -> u = u'.
Proof.
  revert u'. induction u; destruct u'; simpl; intros H;
    try discriminate; try reflexivity;
    injection H as H; f_equal; auto.
Qed.

Lemma uint_digits_no_colon (u : Decimal.uint) : ~ In 58%N (uint_digits u).
Proof.
  induction u; simpl; intros H; [contradiction|..];
    destruct H as [H|H]; [discriminate|auto| discriminate|auto
    | discriminate|auto | discriminate|auto | discriminate|auto
    | discriminate|auto | discriminate|auto | discriminate|auto
    | discriminate|auto | discriminate|auto].
Qed.

Lemma to_uint_leading_zero (n : N) (r : Decimal.uint) :
  N.to_uint n = Decimal.D0 r -> n = 0%N.
Proof.
  intros H.
  pose proof (DecimalN.Unsigned.to_of (N.to_uint n)) as Hn.
  rewrite DecimalN.Unsigned.of_to, H in Hn.
  unfold Decimal.unorm in Hn. simpl in Hn.
  destruct (Decimal.nzhead r) eqn:E.
  - injection Hn as ->. apply DecimalN.Unsigned.to_uint_inj.
    rewrite H. reflexivity.
  - exfalso. apply (DecimalFacts.nzhead_nonzero r r). congruence.
  - discriminate.
  - discriminate.
  - discriminate.
  - discriminate.
  - discriminate.
  - discriminate.
  - discriminate.
  - discriminate.
  - discriminate.
Qed.

Lemma fmt_02d_no_colon (h : Z) : (0 <= h)%Z -> ~ In 58%N (fmt_02d h).
Proof.
  intros Hh. unfold fmt_02d, int_str, nat_digits.
  destruct (h <? 0)%Z eqn:E; [apply Z.ltb_lt in E; lia|].
  destruct (h <? 10)%Z; simpl; intros H.
  - destruct H as [H|H]; [discriminate|].
    exact (uint_digits_no_colon _ H).
  - exact (uint_digits_no_colon _ H).
Qed.

Lemma fmt_02d_inj (a b : Z) :
  (0 <= a)%Z -> (0 <= b)%Z -> fmt_02d a = fmt_02d b -> a = b.
Proof.
  intros Ha Hb. unfold fmt_02d, int_str, nat_digits.
  destruct (a <? 0)%Z eqn:Ea; [apply Z.ltb_lt in Ea; lia|].
  destruct (b <? 0)%Z eqn:Eb; [apply Z.ltb_lt in Eb; lia|].
  assert (Hinj : forall x y : Z, (0 <= x)%Z -> (0 <= y)%Z ->
            uint_digits (N.to_uint (Z.to_N x))
            = uint_digits (N.to_uint (Z.to_N y)) -> x = y).
  { intros x y Hx Hy H. apply uint_digits_inj in H.
    apply DecimalN.Unsigned.to_uint_inj in H. lia. }
  assert (Hzero : forall x y rest, (0 <= y)%Z -> (10 <= y)%Z ->
            48%N :: rest = uint_digits (N.to_uint (Z.to_N y)) -> x = y).
  { intros x y rest Hy Hy10 H.
    destruct (N.to_uint (Z.to_N y)) eqn:E; simpl in H; try discriminate.
    apply to_uint_leading_zero in E. lia. }
  destruct (a <? 10)%Z eqn:Ea10, (b <? 10)%Z eqn:Eb10; intros H.
  - injection H as H. auto.
  - apply Z.ltb_ge in Eb10. eapply Hzero; eauto.
  - apply Z.ltb_ge in Ea10. symmetry. symmetry in H. eapply Hzero; eauto.
  - auto.
Qed.

Lemma split_at_colon (a b x y : str) :
  ~ In 58%N a -> ~ In 58%N b ->
  a ++ 58%N :: x = b ++ 58%N :: y -> a = b /\ x = y.
Proof.
  revert b. induction a as [|c a IH]; intros [|c' b] Ha Hb H; simpl in *.
  - injection H as ->. auto.
  - injection H as <- _. exfalso. apply Hb. auto.
  - injection H as -> _. exfalso. apply Ha. auto.
  - injection H as -> H.
    destruct (IH b) as [-> ->]; auto.
Qed.

Lemma two_digits_inj (a b : Z) :
  (0 <= a < 100)%Z -> (0 <= b < 100)%Z -> two_digits a = two_digits b ->
  a = b.
Proof.
  intros Ha Hb H. unfold two_digits in H.
  assert (Hl : forall x y u v : N, [x; u] = [y; v] -> x = y /\ u = v)
    by (intros x y u v E; injection E; auto).
  apply Hl in H as [H1 H2].
  assert (Ha1 : (0 <= a / 10)%Z) by (apply Z.div_pos; lia).
  assert (Hb1 : (0 <= b / 10)%Z) by (apply Z.div_pos; lia).
  assert (Ha2 : (0 <= a mod 10 < 10)%Z) by (apply Z.mod_pos_bound; lia).
  assert (Hb2 : (0 <= b mod 10 < 10)%Z) by (apply Z.mod_pos_bound; lia).
  pose proof (Z.div_mod a 10 ltac:(lia)).
  pose proof (Z.div_mod b 10 ltac:(lia)). lia.
Qed.

Lemma two_digits_no_colon (a : Z) :
  (0 <= a < 100)%Z -> ~ In 58%N (two_digits a).
Proof.
  intros Ha. unfold two_digits.
  assert (Ha1 : (0 <= a / 10 < 10)%Z).
  { split; [apply Z.div_pos; lia|apply Z.div_lt_upper_bound; lia]. }
  assert (Ha2 : (0 <= a mod 10 < 10)%Z) by (apply Z.mod_pos_bound; lia).
  intros [H|[H|[]]]; lia.
Qed.

(** Distinct non-negative whole seconds never get the same time string. *)
Theorem time_string_injective (t1 t2 : Z) :
  (0 <= t1)%Z -> (0 <= t2)%Z -> time_string t1 = time_string t2 -> t1 = t2.
Proof.
  assert (Hparts : forall t, (0 <= t)%Z ->
    (0 <= t / 3600)%Z /\ (0 <= t mod 3600 / 60 < 60)%Z
    /\ (0 <= t mod 60 < 60)%Z
    /\ t = (3600 * (t / 3600) + 60 * (t mod 3600 / 60) + t mod 60)%Z).
  { intros t Ht.
    assert (Hm : (0 <= t mod 3600 < 3600)%Z) by (apply Z.mod_pos_bound; lia).
    assert (Hs : (t mod 60 = (t mod 3600) mod 60)%Z).
    { symmetry. apply Z.mod_mod_divide. exists 60%Z. reflexivity. }
    repeat split.
    - apply Z.div_pos; lia.
    - apply Z.div_pos; lia.
    - apply Z.div_lt_upper_bound; lia.
    - apply Z.mod_pos_bound; lia.
    - apply Z.mod_pos_bound; lia.
    - rewrite Hs. pose proof (Z.div_mod t 3600 ltac:(lia)).
      pose proof (Z.div_mod (t mod 3600) 60 ltac:(lia)). lia. }
  intros H1 H2 H.
  destruct (Hparts t1 H1) as (Hh1 & Hm1 & Hs1 & E1).
  destruct (Hparts t2 H2) as (Hh2 & Hm2 & Hs2 & E2).
  destruct (Z_lt_le_dec t1 3600) as [L1|L1], (Z_lt_le_dec t2 3600) as [L2|L2].
  - rewrite (time_string_short t1 L1), (time_string_short t2 L2) in H.
    apply split_at_colon in H as [Hm Hs];
      try (apply two_digits_no_colon; lia).
    apply two_digits_inj in Hm, Hs; try lia.
  - rewrite (time_string_short t1 L1), (time_string_long t2 L2) in H.
    apply split_at_colon in H as [_ Hs];
      [|apply two_digits_no_colon; lia|apply fmt_02d_no_colon; lia].
    discriminate.
  - rewrite (time_string_long t1 L1), (time_string_short t2 L2) in H.
    apply split_at_colon in H as [_ Hs];
      [|apply fmt_02d_no_colon; lia|apply two_digits_no_colon; lia].
    discriminate.
  - rewrite (time_string_long t1 L1), (time_string_long t2 L2) in H.
    apply split_at_colon in H as [Hh H];
      try (apply fmt_02d_no_colon; lia).
    apply split_at_colon in H as [Hm Hs];
      try (apply two_digits_no_colon; lia).
    apply fmt_02d_inj in Hh; try lia.
    apply two_digits_inj in Hm, Hs; try lia.
Qed.

Lemma time_string_injective_witness :
  time_string 59 <> time_string 3599.
Proof.
  intros H.
  assert (E : 59%Z = 3599%Z)
    by (apply (time_string_injective 59 3599); [lia|lia|exact H]).
  discriminate E.
Defined.

(* ================================================================== *)
(** * More about the schema coercer *)
(* ================================================================== *)

Lemma str_eqb_refl (a : str) : str_eqb a a = true.
Proof. induction a as [|x a IH]; simpl; [|rewrite N.eqb_refl]; auto. Qed.

Lemma str_eqb_neq (a b : str) : a <> b -> str_eqb a b = false.
Proof.
  intros H. destruct (str_eqb a b) eqn:E; [|reflexivity].
  apply str_eqb_eq in E. contradiction.
Qed.

Lemma dict_get_other_key (name k : str) (v : pyval) (d : dict) :
  k <> name -> dict_get name ((k, v) :: d) = dict_get name d.
Proof.
  intros H. simpl. rewrite str_eqb_neq by congruence. reflexivity.
Qed.

Lemma field_other_key {A : Type} (name : string)
    (inner : pyval -> outcome A) (default : A) (k : str) (v : pyval)
    (d : dict) :
  k <> py name ->
  field name inner default ((k, v) :: d) = field name inner default d.
Proof. intros H. unfold field. rewrite dict_get_other_key; auto. Qed.

Section CoercerMore.
Context {R : PyRuntime}.

(** A validated segment that has both a [start] and an [end] has a
    [time_range]. *)
Theorem validated_segment_has_time_range (v : pyval) (r : TimelineSegment.t) :
  TimelineSegment.model_validate v = Ok r ->
  TimelineSegment.start r <> None -> TimelineSegment.end_ r <> None ->
  TimelineSegment.time_range r <> None.
Proof.
  intros H Hs He. apply TimelineSegment_validated_stable in H.
  unfold TimelineSegment._coerce_time_range in H.
  destruct r as [sid [tr|] [st|] [en|] c va aa ocr em ir]; simpl in *;
    congruence.
Qed.

(** Without a nested [time_range], a segment that lacks [start] or [end]
    (absent or null) gets no [time_range]: nothing is synthesized from one
    bound alone. *)
Theorem one_bound_makes_no_time_range (d : dict) (r : TimelineSegment.t) :
  TimelineSegment.model_validate (PDict d) = Ok r ->
  dict_get (py "time_range") d = None
  \/ dict_get (py "time_range") d = Some PNone ->
  (dict_get (py "start") d = None \/ dict_get (py "start") d = Some PNone)
  \/ (dict_get (py "end") d = None \/ dict_get (py "end") d = Some PNone) ->
  TimelineSegment.time_range r = None.
Proof.
  intros H Hno Hone.
  apply TimelineSegment_validate_inv in H
    as (r0 & -> & _ & Htr & Hstart & Hend & _).
  assert (Hnone : TimelineSegment.time_range r0 = None).
  { unfold field in Htr. destruct Hno as [E|E]; rewrite E in Htr;
      simpl in Htr; congruence. }
  assert (Hb : TimelineSegment.start r0 = None
               \/ TimelineSegment.end_ r0 = None).
  { unfold field, before in Hstart, Hend.
    destruct Hone as [[E|E]|[E|E]]; [left|left|right|right];
      rewrite E in *; simpl in *; congruence. }
  unfold TimelineSegment._coerce_time_range.
  destruct r0 as [sid [tr|] [st|] [en|] c va aa ocr em ir]; simpl in *;
    destruct Hb; congruence.
Qed.

(** Every value is accepted as [segment_id]: a non-null one is stored as
    its [str()], whatever its type, and a string is stored unchanged. *)
Theorem segment_id_accepts_any_value (d : dict) (r : TimelineSegment.t)
    (v : pyval) :
  TimelineSegment.model_validate (PDict d) = Ok r ->
  dict_get (py "segment_id") d = Some v -> v <> PNone ->
  TimelineSegment.segment_id r = Some (py_str v)
  /\ (forall s, v = PStr s -> TimelineSegment.segment_id r = Some s)
  /\ (forall x,
        before TimelineSegment._coerce_segment_id (nullable validate_str) x
        = Ok (match x with PNone => None | _ => Some (py_str x) end)).
Proof.
  intros H Hget Hv.
  apply TimelineSegment_validate_inv in H as (r0 & -> & Hid & _).
  destruct (coerce_time_range_fields r0) as (-> & _).
  unfold field in Hid. rewrite Hget in Hid.
  assert (Hall : forall x,
            before TimelineSegment._coerce_segment_id (nullable validate_str) x
            = Ok (match x with PNone => None | _ => Some (py_str x) end))
    by (intros x; destruct x; reflexivity).
  rewrite Hall in Hid.
  assert (E : TimelineSegment.segment_id r0 = Some (py_str v))
    by (destruct v; congruence).
  repeat split; [exact E| |exact Hall].
  intros s ->. exact E.
Qed.

Lemma traverse_strs_inv (l : list pyval) (texts : list str) :
  traverse validate_str l = Ok texts -> forallb is_str l = true.
Proof.
  intros H. apply traverse_Ok_inv in H.
  induction H as [|v a l texts Hv Hl IH]; simpl; [reflexivity|].
  rewrite IH. destruct v; try discriminate. reflexivity.
Qed.

(** A list given as [text_extraction_ocr] with an item that is not a
    string makes the validation of the segment fail. *)
Theorem ocr_list_of_non_strings_is_rejected (d : dict) (l : list pyval) :
  dict_get (py "text_extraction_ocr") d = Some (PList l) ->
  forallb is_str l = false ->
  forall r, TimelineSegment.model_validate (PDict d) <> Ok r.
Proof.
  intros Hget Hl r H.
  apply TimelineSegment_validate_inv in H
    as (r0 & _ & _ & _ & _ & _ & Hocr).
  unfold field in Hocr. rewrite Hget in Hocr.
  destruct l as [|x l]; [discriminate|].
  assert (Hw : before TimelineSegment._coerce_text_extraction_ocr
                 (nullable TextExtractionOCR.model_validate) (PList (x :: l))
               = fmap Some (Ok TextExtractionOCR.mk
                            <*> traverse validate_str (x :: l) <*> Ok None))
    by reflexivity.
  rewrite Hw in Hocr.
  apply fmap_Ok_inv in Hocr as (ocr & Hocr & _).
  ap_inv Hocr.
  match goal with
  | Ht : traverse validate_str (x :: l) = Ok _ |- _ =>
      apply traverse_strs_inv in Ht; congruence
  end.
Qed.

(** A list given as [target_audience] never fails: whatever its items,
    the stored value is their [str()] joined with [", "]; the empty list
    gives the empty string, not null. *)
Theorem target_audience_list_never_fails
    (d : dict) (r : GlobalViralityAnalysis.t) (items : list pyval) :
  GlobalViralityAnalysis.model_validate (PDict d) = Ok r ->
  dict_get (py "target_audience") d = Some (PList items) ->
  GlobalViralityAnalysis.target_audience r
  = Some (join (py ", ") (map py_str items))
  /\ (items = [] -> GlobalViralityAnalysis.target_audience r = Some [])
  /\ (forall l,
        before GlobalViralityAnalysis._coerce_target_audience
          (nullable validate_str) (PList l)
        = Ok (Some (join (py ", ") (map py_str l)))).
Proof.
  unfold GlobalViralityAnalysis.model_validate, validate_model.
  intros H Hget.
  unfold GlobalViralityAnalysis.fields in H. ap_inv H. simpl.
  unfold field in Hfield0. rewrite Hget in Hfield0.
  assert (Hall : forall l,
            before GlobalViralityAnalysis._coerce_target_audience
              (nullable validate_str) (PList l)
            = Ok (Some (join (py ", ") (map py_str l))))
    by reflexivity.
  rewrite Hall in Hfield0. injection Hfield0 as <-.
  split; [reflexivity|]. split; [intros ->; reflexivity|exact Hall].
Qed.

(** Keys that name no field are ignored, in a report and in a segment. *)
Theorem unknown_keys_are_ignored (k : str) (v : pyval) (d : dict) :
  (~ In k (map py report_fields) ->
   AnalysisResult.model_validate (PDict ((k, v) :: d))
   = AnalysisResult.model_validate (PDict d))
  /\ (~ In k (map py segment_fields) ->
      TimelineSegment.model_validate (PDict ((k, v) :: d))
      = TimelineSegment.model_validate (PDict d)).
Proof.
  split; intros Hk.
  - unfold AnalysisResult.model_validate, validate_model,
      AnalysisResult.fields.
    rewrite !field_other_key; [reflexivity|..];
      intros E; apply Hk; rewrite E; simpl; auto 10.
  - unfold TimelineSegment.model_validate, validate_model,
      TimelineSegment.fields.
    rewrite !field_other_key; [reflexivity|..];
      intros E; apply Hk; rewrite E; simpl; auto 15.
Qed.

(** A validated report has one segment per item of the input list, in
    the same order, each the validation of its item. *)
Theorem segments_are_validated_one_by_one
    (d : dict) (r : AnalysisResult.t) (l : list pyval) :
  AnalysisResult.model_validate (PDict d) = Ok r ->
  dict_get (py "timeline_segments") d = Some (PList l) ->
  Forall2 (fun item seg => TimelineSegment.model_validate item = Ok seg)
    l (AnalysisResult.timeline_segments r)
  /\ List.length (AnalysisResult.timeline_segments r) = List.length l.
Proof.
  unfold AnalysisResult.model_validate, validate_model. intros H Hget.
  unfold AnalysisResult.fields in H. ap_inv H. simpl.
  unfold field in Hfield0. rewrite Hget in Hfield0.
  apply traverse_Ok_inv in Hfield0. split; [exact Hfield0|].
  symmetry. eapply Forall2_length. exact Hfield0.
Qed.


End CoercerMore.

(* ================================================================== *)
(** * The callers *)
(* ================================================================== *)

Import Access.

Lemma try_text_out_content (resp_json : pyval) :
  openrouter_reply.try_text_out resp_json
  = bind (content_of resp_json) (fun content =>
      match content with
      | PList parts => openrouter_reply.scan_parts parts (PStr [])
      | PStr s => Return (PStr s)
      | _ => Return (PStr [])
      end).
Proof.
  unfold openrouter_reply.try_text_out, content_of.
  destruct (getitem_key resp_json "choices") as [choices|]; simpl; auto.
  destruct (getitem_0 choices) as [choice|]; simpl; auto.
  destruct (getitem_key choice "message") as [message|]; simpl; auto.
Qed.

Lemma content_of_error (resp_json : pyval) (e : error) :
  content_of resp_json = Throw e -> e <> AttributeError.
Proof.
  unfold content_of.
  assert (Hk : forall v k e', getitem_key v k = Throw e' ->
                              e' <> AttributeError).
  { intros v k e'. unfold getitem_key.
    destruct v; try (intros E; injection E as <-; discriminate).
    destruct (dict_get (py k) d); [discriminate|].
    intros E; injection E as <-; discriminate. }
  assert (H0 : forall v e', getitem_0 v = Throw e' -> e' <> AttributeError).
  { intros v e'. unfold getitem_0.
    destruct v as [| | | |[|c s]|[|x l]|d];
      try discriminate; intros E; injection E as <-; discriminate. }
  destruct (getitem_key resp_json "choices") as [choices|e1] eqn:E1; simpl;
    [|intros E; injection E as <-; eauto].
  destruct (getitem_0 choices) as [choice|e2] eqn:E2; simpl;
    [|intros E; injection E as <-; eauto].
  destruct (getitem_key choice "message") as [message|e3] eqn:E3; simpl;
    [|intros E; injection E as <-; eauto].
  apply Hk.
Qed.

Lemma scan_parts_dicts (parts : list dict) (t0 : pyval) :
  openrouter_reply.scan_parts (map PDict parts) t0
  = Return (first_true_or_last t0 (text_parts parts)).
Proof.
  revert t0. induction parts as [|d parts IH]; intros t0; [reflexivity|].
  unfold text_parts in *. simpl. unfold get.
  destruct (dict_get (py "type") d) as [ty|]; simpl.
  - destruct (is_text ty); simpl; [|apply IH].
    destruct (dict_get (py "text") d) as [t|]; simpl.
    + destruct (truthy t); [reflexivity|apply IH].
    + apply IH.
  - apply IH.
Qed.

Lemma scan_parts_throws (parts : list pyval) (t0 : pyval) (e : error) :
  openrouter_reply.scan_parts parts t0 = Throw e ->
  e = AttributeError /\ forallb is_dict parts = false.
Proof.
  revert t0. induction parts as [|part parts IH]; intros t0; simpl;
    [discriminate|].
  destruct part; simpl; try (intros E; injection E as <-; auto).
  destruct (dict_get (py "type") d) as [ty|]; simpl.
  - destruct (is_text ty); simpl; [|apply IH].
    destruct (dict_get (py "text") d) as [t|]; simpl.
    + destruct (truthy t); [discriminate|apply IH].
    + apply IH.
  - apply IH.
Qed.

(** The only exception that leaves the text extraction of
    [call_openrouter_video] is an [AttributeError], and only when the
    content is a list with a part that is not an object. *)
Theorem text_out_raises_only_on_bad_parts (resp_json : pyval) (e : error) :
  openrouter_reply.text_out resp_json = Throw e ->
  e = AttributeError
  /\ exists parts, content_of resp_json = Return (PList parts)
                   /\ forallb is_dict parts = false.
Proof.
  unfold openrouter_reply.text_out. rewrite try_text_out_content.
  destruct (content_of resp_json) as [content|e0] eqn:Ec; simpl.
  - destruct content; try discriminate.
    destruct (openrouter_reply.scan_parts l (PStr [])) as [t|e1] eqn:Es;
      [discriminate|].
    destruct (scan_parts_throws l _ _ Es) as [-> Hl].
    intros E. injection E as <-. eauto.
  - pose proof (content_of_error _ _ Ec) as Hne.
    destruct e0; try discriminate. congruence.
Qed.

(** With a content made of objects only, the extracted text is the text
    of the first part of type ["text"] whose text is true (non-empty), or
    else the text of the last part of type ["text"], or else [""]. *)
Theorem text_out_of_object_parts (resp_json : pyval) (parts : list dict) :
  content_of resp_json = Return (PList (map PDict parts)) ->
  openrouter_reply.text_out resp_json
  = Return (first_true_or_last (PStr []) (text_parts parts)).
Proof.
  intros Hc. unfold openrouter_reply.text_out.
  rewrite try_text_out_content, Hc. simpl. rewrite scan_parts_dicts.
  reflexivity.
Qed.

Lemma text_out_plain (resp_json : pyval) :
  (forall s, content_of resp_json = Return (PStr s) ->
     openrouter_reply.text_out resp_json = Return (PStr s))
  /\ (forall e, content_of resp_json = Throw e ->
        openrouter_reply.text_out resp_json = Return (PStr []))
  /\ (forall c, content_of resp_json = Return c ->
        is_str c = false -> (forall l, c <> PList l) ->
        openrouter_reply.text_out resp_json = Return (PStr [])).
Proof.
  unfold openrouter_reply.text_out. rewrite try_text_out_content.
  repeat split.
  - intros s ->. reflexivity.
  - intros e Hc. pose proof (content_of_error _ _ Hc) as Hne.
    rewrite Hc. destruct e; try reflexivity. congruence.
  - intros c -> Hs Hl. destruct c; try reflexivity; try discriminate.
    exfalso. eapply Hl. reflexivity.
Qed.

(** A string content is the extracted text; a response in which the path
    [choices[0].message.content] does not exist, or leads to something
    that is neither a string nor a list, gives the empty text. *)
Theorem text_out_of_plain_content (resp_json : pyval) :
  (forall s, content_of resp_json = Return (PStr s) ->
     openrouter_reply.text_out resp_json = Return (PStr s))
  /\ (forall e, content_of resp_json = Throw e ->
        openrouter_reply.text_out resp_json = Return (PStr []))
  /\ (forall c, content_of resp_json = Return c ->
        is_str c = false -> (forall l, c <> PList l) ->
        openrouter_reply.text_out resp_json = Return (PStr [])).
Proof. exact (text_out_plain resp_json). Qed.

Section Callers.
Context {R : PyRuntime}.


(** A reply that decodes to something other than an object makes
    [analyze_video_structure] raise a [ValidationError]. *)
Theorem non_object_reply_is_rejected (s : str) (v : pyval) :
  Json.loads (fence_stripped s) = Some v -> is_dict v = false ->
  video_llm_calls.analyze_video_structure (Some s) = Raise ValidationError.
Proof.
  intros H Hv. unfold video_llm_calls.analyze_video_structure.
  replace (match s with [] => [] | c :: s0 => c :: s0 end) with s
    by (destruct s; reflexivity).
  change _parse_json_safe with parse_json_from_model_text.
  rewrite parse_json_from_model_text_unfold, H.
  destruct v; try reflexivity. discriminate.
Qed.


(** A response without the path [choices[0].message.content] is analysed
    as the empty report, with the error envelope of the empty text as
    parsed payload. *)
Theorem analyze_response_without_content (resp_json : pyval) (e : error) :
  content_of resp_json = Throw e ->
  openrouter_analysis.analyze_response resp_json
  = openrouter_analysis.Done
      (AnalysisResult.empty,
       PDict [(py "raw", resp_json); (py "text", PStr []);
              (py "parsed_json", error_envelope [])]).
Proof.
  intros Hc. unfold openrouter_analysis.analyze_response,
    openrouter_reply.call_openrouter_video_result.
  destruct (text_out_plain resp_json) as (_ & He & _).
  rewrite (He e Hc). reflexivity.
Qed.

End Callers.


(* ================================================================== *)
(** * The further properties on concrete inputs *)
(* ================================================================== *)

Lemma validated_segment_has_time_range_witness :
  let v := PDict [(py "start", PInt 65); (py "end", PInt 70)] in
  exists r,
    TimelineSegment.model_validate v = Ok r
    /\ TimelineSegment.start r <> None
    /\ TimelineSegment.end_ r <> None
    /\ TimelineSegment.time_range r <> None.
Proof.
  intros v.
  destruct (TimelineSegment.model_validate v) as [r|e] eqn:E;
    [|vm_compute in E; discriminate].
  assert (Hs : TimelineSegment.start r <> None)
    by (vm_compute in E; injection E as <-; discriminate).
  assert (He : TimelineSegment.end_ r <> None)
    by (vm_compute in E; injection E as <-; discriminate).
  exists r. repeat split; try assumption.
  exact (validated_segment_has_time_range v r E Hs He).
Defined.

Lemma one_bound_makes_no_time_range_witness :
  let d := [(py "start", PInt 65)] in
  exists r,
    TimelineSegment.model_validate (PDict d) = Ok r
    /\ TimelineSegment.start r = Some (py "01:05")
    /\ TimelineSegment.time_range r = None.
Proof.
  intros d.
  destruct (TimelineSegment.model_validate (PDict d)) as [r|e] eqn:E;
    [|vm_compute in E; discriminate].
  exists r. split; [reflexivity|]. split.
  - vm_compute in E. injection E as <-. reflexivity.
  - apply (one_bound_makes_no_time_range d r E);
      [left; reflexivity|right; left; reflexivity].
Defined.

Lemma segment_id_accepts_any_value_witness :
  let d := [(py "segment_id", PBool true)] in
  exists r,
    TimelineSegment.model_validate (PDict d) = Ok r
    /\ TimelineSegment.segment_id r = Some (py "True").
Proof.
  intros d.
  destruct (TimelineSegment.model_validate (PDict d)) as [r|e] eqn:E;
    [|vm_compute in E; discriminate].
  exists r. split; [reflexivity|].
  assert (Hv : PBool true <> PNone) by discriminate.
  exact (proj1 (segment_id_accepts_any_value d r (PBool true) E eq_refl Hv)).
Defined.

Lemma ocr_list_of_non_strings_is_rejected_witness :
  let d := [(py "text_extraction_ocr", PList [PStr (py "LOGIN"); PInt 1])] in
  forallb is_str [PStr (py "LOGIN"); PInt 1] = false
  /\ TimelineSegment.model_validate (PDict d)
     <> Ok (TimelineSegment.mk None None None None None None None None None
              None).
Proof.
  intros d. split; [reflexivity|].
  apply (ocr_list_of_non_strings_is_rejected d
           [PStr (py "LOGIN"); PInt 1]); reflexivity.
Defined.

Lemma target_audience_list_never_fails_witness :
  let items := [PInt 18; PStr (py "Gen Z")] in
  let d := [(py "target_audience", PList items)] in
  exists r,
    GlobalViralityAnalysis.model_validate (PDict d) = Ok r
    /\ GlobalViralityAnalysis.target_audience r = Some (py "18, Gen Z").
Proof.
  intros items d.
  destruct (GlobalViralityAnalysis.model_validate (PDict d)) as [r|e] eqn:E;
    [|vm_compute in E; discriminate].
  exists r. split; [reflexivity|].
  exact (proj1 (target_audience_list_never_fails d r items E eq_refl)).
Defined.

Lemma unknown_keys_are_ignored_witness :
  let d := [(py "timeline_segments", PList [])] in
  AnalysisResult.model_validate (PDict ((py "error", PStr (py "x")) :: d))
  = AnalysisResult.model_validate (PDict d).
Proof.
  intros d.
  apply (proj1 (unknown_keys_are_ignored (py "error") (PStr (py "x")) d)).
  vm_compute. intros [H|[H|[H|[H|[H|[]]]]]]; discriminate H.
Defined.

Lemma segments_are_validated_one_by_one_witness :
  let l := [PDict [(py "segment_id", PInt 1)];
            PDict [(py "segment_id", PInt 2)]] in
  let d := [(py "timeline_segments", PList l)] in
  exists r,
    AnalysisResult.model_validate (PDict d) = Ok r
    /\ List.length (AnalysisResult.timeline_segments r) = 2.
Proof.
  intros l d.
  destruct (AnalysisResult.model_validate (PDict d)) as [r|e] eqn:E;
    [|vm_compute in E; discriminate].
  exists r. split; [reflexivity|].
  exact (proj2 (segments_are_validated_one_by_one d r l E eq_refl)).
Defined.


Lemma text_out_raises_only_on_bad_parts_witness :
  let resp :=
    PDict [(py "choices",
            PList [PDict [(py "message",
                           PDict [(py "content",
                                   PList [PStr (py "hello")])])]])] in
  openrouter_reply.text_out resp = Throw AttributeError.
Proof.
  intros resp.
  destruct (openrouter_reply.text_out resp) as [t|e] eqn:E;
    [vm_compute in E; discriminate|].
  destruct (text_out_raises_only_on_bad_parts resp e E) as [-> _].
  reflexivity.
Defined.

Lemma text_out_of_object_parts_witness :
  let parts := [[(py "type", PStr (py "image"))];
                [(py "type", PStr (py "text")); (py "text", PStr [])];
                [(py "type", PStr (py "text")); (py "text", PStr (py "{}"))];
                [(py "type", PStr (py "text")); (py "text", PStr (py "x"))]] in
  let resp :=
    PDict [(py "choices",
            PList [PDict [(py "message",
                           PDict [(py "content",
                                   PList (map PDict parts))])]])] in
  openrouter_reply.text_out resp = Return (PStr (py "{}")).
Proof.
  intros parts resp.
  exact (text_out_of_object_parts resp parts eq_refl).
Defined.

Lemma text_out_of_plain_content_witness :
  openrouter_reply.text_out
    (PDict [(py "choices",
             PList [PDict [(py "message",
                            PDict [(py "content", PStr (py "{}"))])]])])
  = Return (PStr (py "{}"))
  /\ openrouter_reply.text_out (PDict [(py "choices", PList [])])
     = Return (PStr [])
  /\ openrouter_reply.text_out
       (PDict [(py "choices",
                PList [PDict [(py "message",
                               PDict [(py "content", PNone)])]])])
     = Return (PStr []).
Proof.
  split; [|split].
  - apply (proj1 (text_out_of_plain_content _)). reflexivity.
  - apply (proj1 (proj2 (text_out_of_plain_content _)) IndexError).
    reflexivity.
  - apply (proj2 (proj2 (text_out_of_plain_content _)) PNone);
      [reflexivity|reflexivity|discriminate].
Defined.


Lemma non_object_reply_is_rejected_witness :
  video_llm_calls.analyze_video_structure (Some (py "[1, 2]"))
  = Raise ValidationError.
Proof.
  apply (non_object_reply_is_rejected (py "[1, 2]") (PList [PInt 1; PInt 2]));
    reflexivity.
Defined.


Lemma analyze_response_without_content_witness :
  openrouter_analysis.analyze_response (PDict [(py "error", PStr (py "x"))])
  = openrouter_analysis.Done
      (AnalysisResult.empty,
       PDict [(py "raw", PDict [(py "error", PStr (py "x"))]);
              (py "text", PStr []);
              (py "parsed_json", error_envelope [])]).
Proof.
  apply (analyze_response_without_content _ KeyError). reflexivity.
Defined.


(* ================================================================== *)
(** * The data URL *)
(* ================================================================== *)

Lemma alphabet_inverse (i : N) :
  (i < 64)%N ->
  unalphabet (data_url.alphabet i) = i
  /\ data_url.alphabet i <> data_url.pad
  /\ (data_url.alphabet i < 128)%N.
Proof.
  intros Hi.
  assert (Hall : forallb
            (fun k => let i := N.of_nat k in
               (unalphabet (data_url.alphabet i) =? i)%N
               && negb (data_url.alphabet i =? data_url.pad)%N
               && (data_url.alphabet i <? 128)%N)
            (seq 0 64) = true) by (vm_compute; reflexivity).
  rewrite forallb_forall in Hall.
  specialize (Hall (N.to_nat i)). rewrite N2Nat.id in Hall.
  assert (Hin : In (N.to_nat i) (seq 0 64)) by (apply in_seq; lia).
  apply Hall in Hin.
  apply andb_true_iff in Hin as [Hin H3].
  apply andb_true_iff in Hin as [H1 H2].
  apply N.eqb_eq in H1. apply negb_true_iff, N.eqb_neq in H2.
  apply N.ltb_lt in H3. auto.
Qed.

Lemma three_step_induction {A : Type} (P : list A -> Prop) :
  P [] -> (forall x, P [x]) -> (forall x y, P [x; y]) ->
  (forall x y z rest, P rest -> P (x :: y :: z :: rest)) ->
  forall l, P l.
Proof.
  intros H0 H1 H2 H3 l.
  assert (H : P l /\ (forall x, P (x :: l)) /\ (forall x y, P (x :: y :: l))).
  { induction l as [|a l (IH0 & IH1 & IH2)]; auto. }
  apply H.
Qed.

Ltac dlia := zify; Z.to_euclidean_division_equations; lia.

Ltac sextets :=
  repeat match goal with
  | x : Byte.byte |- _ =>
      lazymatch goal with
      | _ : (Byte.to_N x <= 255)%N |- _ => fail
      | _ => pose proof (Byte.to_N_bounded x)
      end
  end.

Lemma b64decode_b64encode (data : list Byte.byte) :
  b64decode (data_url.b64encode data) = map Byte.to_N data.
Proof.
  induction data as [|x|x y|x y z rest IH] using three_step_induction.
  - reflexivity.
  - sextets. cbn [data_url.b64encode b64decode map].
    rewrite N.eqb_refl.
    destruct (alphabet_inverse (Byte.to_N x / 4)) as (-> & _); [dlia|].
    destruct (alphabet_inverse (Byte.to_N x mod 4 * 16)) as (-> & _); [dlia|].
    f_equal. dlia.
  - sextets. cbn [data_url.b64encode b64decode map].
    rewrite N.eqb_refl.
    destruct (alphabet_inverse (Byte.to_N x / 4)) as (-> & _); [dlia|].
    destruct (alphabet_inverse (Byte.to_N x mod 4 * 16 + Byte.to_N y / 16))
      as (-> & _); [dlia|].
    destruct (alphabet_inverse (Byte.to_N y mod 16 * 4)) as (-> & Hp & _);
      [dlia|].
    apply N.eqb_neq in Hp. rewrite Hp.
    f_equal; [dlia|]. f_equal. dlia.
  - sextets. cbn [data_url.b64encode b64decode map].
    destruct (alphabet_inverse (Byte.to_N x / 4)) as (-> & _); [dlia|].
    destruct (alphabet_inverse (Byte.to_N x mod 4 * 16 + Byte.to_N y / 16))
      as (-> & _); [dlia|].
    destruct (alphabet_inverse (Byte.to_N y mod 16 * 4 + Byte.to_N z / 64))
      as (-> & Hp2 & _); [dlia|].
    destruct (alphabet_inverse (Byte.to_N z mod 64)) as (-> & Hp3 & _);
      [dlia|].
    apply N.eqb_neq in Hp2, Hp3. rewrite Hp2, Hp3, IH.
    f_equal; [dlia|]. f_equal; [dlia|]. f_equal. dlia.
Qed.

Lemma map_to_N_inj (a b : list Byte.byte) :
  map Byte.to_N a = map Byte.to_N b -> a = b.
Proof.
  revert b. induction a as [|x a IH]; destruct b as [|y b]; simpl;
    try discriminate; [reflexivity|].
  intros H. injection H as Hxy H. f_equal; [|auto].
  pose proof (Byte.of_to_N x) as Hx. rewrite Hxy, Byte.of_to_N in Hx.
  congruence.
Qed.

(** The payload of the data URL decodes back to the video bytes, so for
    one MIME type two videos have the same URL only if they are equal. *)
Theorem data_url_determines_the_video
    (video1 video2 : list Byte.byte) (mime_type : str) :
  b64decode (data_url.b64encode video1) = map Byte.to_N video1
  /\ (data_url._encode_video_to_data_url video1 mime_type
      = data_url._encode_video_to_data_url video2 mime_type ->
      video1 = video2).
Proof.
  split; [apply b64decode_b64encode|].
  unfold data_url._encode_video_to_data_url. intros H.
  repeat apply app_inv_head in H.
  apply map_to_N_inj. rewrite <- !b64decode_b64encode, H. reflexivity.
Qed.

Lemma data_url_determines_the_video_witness :
  data_url._encode_video_to_data_url [Byte.x00; Byte.x01] (py "video/mp4")
  <> data_url._encode_video_to_data_url [Byte.x00; Byte.x01; Byte.x00]
       (py "video/mp4").
Proof.
  intros H.
  apply (proj2 (data_url_determines_the_video
                  [Byte.x00; Byte.x01] [Byte.x00; Byte.x01; Byte.x00]
                  (py "video/mp4"))) in H.
  discriminate H.
Defined.

(** The payload of the data URL has four characters for every three
    bytes, rounded up, all of them ASCII. *)
Theorem data_url_payload_length (video_bytes : list Byte.byte) :
  List.length (data_url.b64encode video_bytes)
  = 4 * ((List.length video_bytes + 2) / 3)
  /\ Forall (fun c => (c < 128)%N) (data_url.b64encode video_bytes).
Proof.
  induction video_bytes as [|x|x y|x y z rest [IHl IHa]]
    using three_step_induction.
  - split; [reflexivity|constructor].
  - sextets. split; [reflexivity|].
    cbn [data_url.b64encode].
    repeat constructor; try (apply alphabet_inverse; dlia).
  - sextets. split; [reflexivity|].
    cbn [data_url.b64encode].
    repeat constructor; try (apply alphabet_inverse; dlia).
  - sextets. split.
    + cbn [data_url.b64encode List.length]. rewrite IHl.
      replace (S (S (S (List.length rest))) + 2)
        with (1 * 3 + (List.length rest + 2)) by dlia.
      rewrite Nat.div_add_l by dlia. dlia.
    + cbn [data_url.b64encode].
      repeat (constructor; [apply alphabet_inverse; dlia|]). exact IHa.
Qed.

Example data_url_of_three_bytes :
  data_url._encode_video_to_data_url [Byte.x4d; Byte.x61; Byte.x6e]
    (py "video/mp4")
  = py "data:video/mp4;base64,TWFu".
Proof. reflexivity. Qed.

Example b64encode_padding :
  data_url.b64encode [Byte.x4d] = py "TQ=="
  /\ data_url.b64encode [Byte.x4d; Byte.x61] = py "TWE=".
Proof. split; reflexivity. Qed.

Lemma canonical_report_validates_witness :
  let seg := TimelineSegment.mk (Some (py "1"))
               (Some (TimeRange.mk (py "01:05") (py "01:10")))
               (Some (py "01:05")) (Some (py "01:10"))
               None None None None None None in
  let r := AnalysisResult.mk None None None [seg] None in
  AnalysisResult.model_validate (AnalysisResult.model_dump r) = Ok r.
Proof.
  intros seg r. apply (canonical_report_validates r).
  repeat constructor.
Defined.
